(** * etl-avalanche: the forecast normaliser, the geometry extractor and the
    feature assembler of [task.ts], embedded and verified.

    The task polls avalanche.net.nz for a fixed list of regions, turns each
    region's forecast into an [AvalancheData] record and pushes one or two
    GeoJSON features per region into a collection that is submitted once.

    Conventions of the embedding:
    - a JavaScript string is a [string] whose characters are its code units;
      the development covers code units below 256;
    - a [number] that the code computes with (ratings, levels, region ids,
      time values, status codes) is an integer, a [Z], and is printed as
      Number::toString prints the double nearest to it; a number that is only
      carried from the input to the output (latitude, longitude, the numbers
      of a geometry document, the style constants) is a [Q];
    - [null] and [undefined] are [None];
    - a thrown exception is the [Throw] case of [completion];
    - what the JavaScript engine and its surroundings supply ([Date.parse],
      [JSON.parse], the search for a regular expression, the local time
      zone, the clock) is a [Host], a class the definitions are parametrised
      by; [Reference.reference] is one to run them on. *)

From Stdlib Require Import ZArith QArith List String Ascii Bool Lia DecimalString.
From stdpp Require Import base option gmap strings.

Set Warnings "-register-all".
#[local] Open Scope string_scope.
#[local] Open Scope list_scope.
#[local] Open Scope Z_scope.

(** ** The JavaScript that the task relies on *)

Module JS.

(** *** Completions: a value, or a thrown exception *)

Inductive error := RangeError | SyntaxError | TypeError | HostError.

Inductive completion (A : Type) :=
| Return (a : A)
| Throw (e : error).
Arguments Return {A} a.
Arguments Throw {A} e.

Definition bind {A B} (c : completion A) (k : A -> completion B) : completion B :=
  match c with
  | Return a => k a
  | Throw e => Throw e
  end.

(** [try { c } catch { h }] *)
Definition try_catch {A} (c : completion A) (h : error -> A) : A :=
  match c with
  | Return a => a
  | Throw e => h e
  end.

(** *** Strings *)

(** The decimal digits of an integer, with a [-] before those of a
    negative one. *)
Definition decimal (n : Z) : string :=
  NilZero.string_of_int (Z.to_int n).

(** The double nearest to the integer [n], halfway cases going to the even
    significand: [n] itself up to 2^53 in size, and past that a multiple
    of a power of two with a significand of 53 bits.  What lies past the
    largest double goes to 2^1024, which stands for Infinity. *)
Definition toDouble (n : Z) : Z :=
  let a := Z.abs n in
  if a <=? 2 ^ 53 then n
  else
    let e := Z.log2 a - 52 in
    let m := a / 2 ^ e in
    let r := a mod 2 ^ e in
    let half := 2 ^ (e - 1) in
    let m' := if (half <? r) || ((r =? half) && Z.odd m) then m + 1 else m in
    Z.sgn n * Z.min (m' * 2 ^ e) (2 ^ 1024).

(** How many decimal digits a positive integer has. *)
Definition digitCount (a : Z) : Z := Z.of_nat (String.length (decimal a)).

(** Of the two multiples of [p] around the double [x], those that have [k]
    digits in front of [p] and that round to [x]; of two, the one closer to
    [x], and the even one when they are as close. *)
Definition closest (x p k : Z) : option Z :=
  let lo := x / p in
  let hi := lo + 1 in
  let fits s := (10 ^ (k - 1) <=? s) && (s <? 10 ^ k) && (toDouble (s * p) =? x) in
  match fits lo, fits hi with
  | true, true =>
      Some (if x - lo * p <? hi * p - x then lo
            else if hi * p - x <? x - lo * p then hi
            else if Z.even lo then lo else hi)
  | true, false => Some lo
  | false, true => Some hi
  | false, false => None
  end.

(** The fewest digits [s], [k] of them from [k] on, such that [s] followed
    by zeros up to [len] digits rounds to the double [x]. *)
Fixpoint shortest (fuel : nat) (x len k : Z) : Z * Z :=
  match fuel with
  | O => (x, len)
  | S fuel' =>
      match closest x (10 ^ (len - k)) k with
      | Some s => (s, k)
      | None => shortest fuel' x len (k + 1)
      end
  end.

Fixpoint zeros (n : nat) : string :=
  match n with
  | O => EmptyString
  | S n' => String "0" (zeros n')
  end.

(** [`${n}`], that is Number::toString, for the double nearest to the
    integer [n].  Up to 2^53 in size these are the decimal digits of [n].
    Past that they are the fewest digits [s] for which [s] times a power
    of ten, [n] digits long in all, still rounds to the double: written
    out with zeros behind them up to 21 digits, and in exponent form from
    there on. *)
Definition String_of_number (n : Z) : string :=
  let x := toDouble n in
  let a := Z.abs x in
  let sign := if x <? 0 then "-" else EmptyString in
  if a <=? 2 ^ 53 then decimal x
  else if 2 ^ 1024 <=? a then sign +:+ "Infinity"
  else
    let len := digitCount a in
    let '(s, k, n) :=
      if toDouble (10 ^ len) =? a then (1, 1, len + 1)
      else let '(s, k) := shortest (Z.to_nat len) a len 1 in (s, k, len) in
    if n <=? 21 then sign +:+ decimal s +:+ zeros (Z.to_nat (n - k))
    else
      let mantissa :=
        match decimal s with
        | String c EmptyString => String c EmptyString
        | String c rest => String c ("." +:+ rest)
        | EmptyString => EmptyString
        end in
      sign +:+ mantissa +:+ "e+" +:+ decimal (n - 1).

(** A string is truthy when it is not empty. *)
Definition truthy_string (s : string) : bool :=
  match s with
  | EmptyString => false
  | String _ _ => true
  end.

(** [a.join(sep)] *)
Fixpoint join (sep : string) (a : list string) : string :=
  match a with
  | [] => EmptyString
  | [s] => s
  | s :: rest => s +:+ sep +:+ join sep rest
  end.

Definition LF : string := String (ascii_of_nat 10) EmptyString.

(** WhiteSpace and LineTerminator code units below 256: TAB, LF, VT, FF,
    CR, SP and NBSP. *)
Definition isWhiteSpace (c : ascii) : bool :=
  let n := nat_of_ascii c in
  ((9 <=? n) && (n <=? 13) || (n =? 32) || (n =? 160))%nat.

Fixpoint trimStart (s : string) : string :=
  match s with
  | EmptyString => EmptyString
  | String c r => if isWhiteSpace c then trimStart r else s
  end.

Fixpoint trimEnd (s : string) : string :=
  match s with
  | EmptyString => EmptyString
  | String c r =>
      match trimEnd r with
      | EmptyString => if isWhiteSpace c then EmptyString else String c EmptyString
      | r' => String c r'
      end
  end.

(** [s.trim()] *)
Definition trim (s : string) : string := trimEnd (trimStart s).

Definition isLt (c : ascii) : bool := Ascii.eqb c "<".
Definition isGt (c : ascii) : bool := Ascii.eqb c ">".

(** Does a [>] occur in [s]? *)
Fixpoint hasGt (s : string) : bool :=
  match s with
  | EmptyString => false
  | String c r => isGt c || hasGt r
  end.

(** [s.replace(/<[^>]*>/g, '')]: scanning from the left, a [<] starts a
    match when a [>] occurs after it, and the match runs to the first such
    [>]; the matched text is dropped and scanning resumes behind it.  A
    [<] with no [>] behind it matches nothing and is kept. *)
Fixpoint replaceTags (s : string) : string :=
  match s with
  | EmptyString => EmptyString
  | String c r =>
      if isLt c && hasGt r then insideTag r else String c (replaceTags r)
  end
with insideTag (s : string) : string :=
  match s with
  | EmptyString => EmptyString
  | String c r => if isGt c then replaceTags r else insideTag r
  end.

(** *** Dates *)

(** A Date holds a time value, an integral number of milliseconds since
    the epoch within 8.64e15 of it, or NaN ([None], "Invalid Date"). *)
Definition Date := option Z.

Definition maxTime : Z := 8640000000000000.

Definition TimeClip (t : Z) : Date :=
  if Z.abs t <=? maxTime then Some t else None.

(** [new Date(tv)] for a numeric argument; [None] is NaN. *)
Definition Date_of_number (tv : option Z) : Date :=
  match tv with
  | Some t => TimeClip t
  | None => None
  end.

Definition getTime (d : Date) : option Z := d.

Definition msPerDay : Z := 86400000.

(** Year, month (1 to 12) and day of the month of a day number, in the
    proleptic Gregorian calendar. *)
Definition civil_of_days (z : Z) : Z * Z * Z :=
  let z := z + 719468 in
  let era := z / 146097 in
  let doe := z - era * 146097 in
  let yoe := (doe - doe / 1460 + doe / 36524 - doe / 146096) / 365 in
  let doy := doe - (365 * yoe + yoe / 4 - yoe / 100) in
  let mp := (5 * doy + 2) / 153 in
  let d := doy - (153 * mp + 2) / 5 + 1 in
  let m := if mp <? 10 then mp + 3 else mp - 9 in
  let y := yoe + era * 400 in
  (if m <=? 2 then y + 1 else y, m, d).

Definition days_of_civil (y m d : Z) : Z :=
  let y := if m <=? 2 then y - 1 else y in
  let era := y / 400 in
  let yoe := y - era * 400 in
  let doy := (153 * (if 2 <? m then m - 3 else m + 9) + 2) / 5 + d - 1 in
  let doe := yoe * 365 + yoe / 4 - yoe / 100 + doy in
  era * 146097 + doe - 719468.

(** The decimal digits of [n], padded with zeros on the left to [w]. *)
Fixpoint pad (w : nat) (n : Z) : string :=
  match w with
  | O => EmptyString
  | S w' => pad w' (n / 10) +:+ String (ascii_of_nat (48 + Z.to_nat (n mod 10))) EmptyString
  end.

Definition isoYear (y : Z) : string :=
  if (0 <=? y) && (y <=? 9999) then pad 4 y
  else if y <? 0 then "-" +:+ pad 6 (- y)
  else "+" +:+ pad 6 y.

Definition isoOfTime (t : Z) : string :=
  let day := t / msPerDay in
  let ms := t mod msPerDay in
  let '(y, m, d) := civil_of_days day in
  isoYear y +:+ "-" +:+ pad 2 m +:+ "-" +:+ pad 2 d +:+ "T"
    +:+ pad 2 (ms / 3600000) +:+ ":" +:+ pad 2 (ms / 60000 mod 60) +:+ ":"
    +:+ pad 2 (ms / 1000 mod 60) +:+ "." +:+ pad 3 (ms mod 1000) +:+ "Z".

(** [d.toISOString()]: a RangeError on an invalid date. *)
Definition toISOString (d : Date) : completion string :=
  match d with
  | Some t => Return (isoOfTime t)
  | None => Throw RangeError
  end.

(** [parseInt(s)] on a string of decimal digits. *)
Definition digit (c : ascii) : option Z :=
  let n := Z.of_nat (nat_of_ascii c) in
  if (48 <=? n) && (n <=? 57) then Some (n - 48) else None.

Fixpoint digits (acc : Z) (s : string) : option Z :=
  match s with
  | EmptyString => Some acc
  | String c r =>
      match digit c with
      | Some d => digits (10 * acc + d) r
      | None => None
      end
  end.

Definition parseInt (s : string) : option Z :=
  match s with
  | EmptyString => None
  | _ => digits 0 s
  end.

(** *** JSON documents *)

Inductive json :=
| JNull
| JBool (b : bool)
| JNumber (q : Q)
| JString (s : string)
| JArray (items : list json)
| JObject (members : gmap string json).

(** A value read out of a document: [None] is [undefined]. *)
Definition value := option json.

Definition truthy (v : value) : bool :=
  match v with
  | None | Some JNull => false
  | Some (JBool b) => b
  | Some (JNumber q) => negb (Qeq_bool q 0)
  | Some (JString s) => truthy_string s
  | Some (JArray _) | Some (JObject _) => true
  end.

(** [v.name], for the names the task reads ([layers], [geometry], [type],
    [coordinates]); none of them is supplied by a prototype, so only an
    object's own members answer.  Reading a property of [null] or
    [undefined] is a TypeError. *)
Definition get (v : value) (name : string) : completion value :=
  match v with
  | None | Some JNull => Throw TypeError
  | Some (JObject members) => Return (members !! name)
  | Some _ => Return None
  end.

(** [v[i]]: an array's element, a string's character, an object's member
    named by the index. *)
Definition item (v : value) (i : nat) : completion value :=
  match v with
  | None | Some JNull => Throw TypeError
  | Some (JArray items) => Return (items !! i)
  | Some (JString s) =>
      Return (match String.get i s with
              | Some c => Some (JString (String c EmptyString))
              | None => None
              end)
  | Some (JObject members) => Return (members !! String_of_number (Z.of_nat i))
  | Some _ => Return None
  end.

(** [v === s] for a string constant [s]. *)
Definition strictEqString (v : value) (s : string) : bool :=
  match v with
  | Some (JString s') => String.eqb s' s
  | _ => false
  end.

(** *** The host *)

(** What the engine and its surroundings supply.
    - [Date_parse s] is [Date.parse(s)], [None] for NaN;
    - [JSON_parse s] is [JSON.parse(s)], [None] for a SyntaxError;
    - [Date_local y m d h min] is the time value of [new Date(y, m, d, h,
      min)], which depends on the local time zone;
    - [Date_now] is the time value of [new Date()];
    - [match_nz s] is [s.match(re)] for the pattern of [parseDate], giving
      the captured day, month, year, hour and minute. *)
Class Host := {
  Date_parse : string -> option Z;
  JSON_parse : string -> option json;
  Date_local : Z -> Z -> Z -> Z -> Z -> option Z;
  Date_now : Z;
  match_nz : string -> option (string * string * string * string * string)
}.

(** [new Date(s)] for a string argument. *)
Definition Date_of_string `{Host} (s : string) : Date :=
  Date_of_number (Date_parse s).

End JS.

(** ** The task *)

Module Task.
Import JS.

(** Avalanche danger level icon mapping *)
Definition AVALANCHE_ICONS : gmap Z string :=
  {[ 0 := "bb4df0a6-ca8d-4ba8-bb9e-3deb97ff015e:NaturalHazards/NH.41B.Avalanche.DangerLevel0.Label.png";
     1 := "bb4df0a6-ca8d-4ba8-bb9e-3deb97ff015e:NaturalHazards/NH.42B.Avalanche.DangerLevel1.Label.png";
     2 := "bb4df0a6-ca8d-4ba8-bb9e-3deb97ff015e:NaturalHazards/NH.43B.Avalanche.DangerLevel2.Label.png";
     3 := "bb4df0a6-ca8d-4ba8-bb9e-3deb97ff015e:NaturalHazards/NH.44B.Avalanche.DangerLevel3.Label.png";
     4 := "bb4df0a6-ca8d-4ba8-bb9e-3deb97ff015e:NaturalHazards/NH.45B.Avalanche.DangerLevel4and5.Label.png";
     5 := "bb4df0a6-ca8d-4ba8-bb9e-3deb97ff015e:NaturalHazards/NH.45B.Avalanche.DangerLevel4and5.Label.png" ]}.

Definition AVALANCHE_COLORS : gmap Z string :=
  {[ 5 := "rgb(0, 0, 0)";
     4 := "rgb(239, 43, 47)";
     3 := "rgb(248, 151, 44)";
     2 := "rgb(255, 244, 31)";
     1 := "rgb(84, 187, 81)";
     0 := "rgb(128, 128, 128)" ]}.

Definition VALID_REGIONS : list Z := [1; 2; 4; 5; 6; 7; 8; 9; 10; 11; 12; 13; 15].

(** [table[level] || table[0]]: the second operand answers when the first
    is [undefined] or the empty string. *)
Definition orElse (a b : option string) : option string :=
  match a with
  | Some s => if truthy_string s then a else b
  | None => b
  end.

Definition lookupOrZero (table : gmap Z string) (level : Z) : option string :=
  orElse (table !! level) (table !! 0).

(** *** Data *)

Module RegionInfo.
Record t := {
  id : Z;
  title : string;
  latitude : Q;
  longitude : Q;
  geometry : string
}.
End RegionInfo.

Module AvalancheData.
Record t := {
  location : string;
  level : Z;
  levelText : string;
  description : string;
  start : string;
  expires : string;
  url : string
}.
End AvalancheData.

(** The body of [GET /api/forecast], as [getForecastData] casts it. *)
Module Altitude.
Record t := {
  rating : Z;
  description : string
}.
End Altitude.

Module Forecast.
Record t := {
  regionId : Z;
  altitudeDanger : option (list Altitude.t);
  created : string;
  validPeriod : string;
  importantInformation : string
}.
End Forecast.

Module ForecastList.
Record t := {
  forecasts : option (list Forecast.t)
}.
End ForecastList.

(** The features pushed by [control]. *)
Module Link.
Record t := {
  uid : string;
  relation : string;
  mime : string;
  url : string;
  remarks : string
}.
End Link.

Module Properties.
Record base := {
  callsign : string;
  type : string;
  time : string;
  start : string;
  stale : option string;
  remarks : string;
  links : list Link.t
}.

(** The members added to the spread of [baseProperties]. *)
Inductive style :=
| OfPolygon (stroke : option string) (stroke_opacity : Q) (stroke_width : Z)
    (stroke_style : string) (fill_opacity : Q) (fill : option string)
| OfPoint (icon : option string).

Record t := {
  shared : base;
  own : style
}.
End Properties.

Module Geometry.
Inductive t :=
| Polygon (coordinates : json)
| Point (coordinates : list Q).
End Geometry.

Module Feature.
Record t := {
  id : string;
  type : string;
  properties : Properties.t;
  geometry : Geometry.t
}.
End Feature.

Module FeatureCollection.
Record t := {
  type : string;
  features : list Feature.t
}.
End FeatureCollection.

(** *** Effects *)

(** What a run does to the outside, in order. *)
Inductive event :=
| console_log (message : string)
| console_warn (message : string)
| console_error (message : string)
| submit (fc : FeatureCollection.t).

(** A computation that has effects: its value and the events it caused. *)
Definition IO (A : Type) : Type := A * list event.

Definition ret {A} (a : A) : IO A := (a, []).

Definition seq {A B} (c : IO A) (k : A -> IO B) : IO B :=
  let '(a, t1) := c in
  let '(b, t2) := k a in
  (b, t1 ++ t2).

Definition emit (e : event) : IO unit := (tt, [e]).

Notation "'do' x <- c ; k" := (seq c (fun x => k))
  (at level 10, x name, c at level 100, k at level 200).
Notation "'run' c ; k" := (seq c (fun _ => k))
  (at level 10, c at level 100, k at level 200).

(** The outcome of [await fetch(...)] followed by [await response.json()]:
    a rejection of either, a response that is not [ok], or the body. *)
Inductive fetched (A : Type) :=
| Rejected
| NotOk (status : Z)
| Ok (data : A).
Arguments Rejected {A}.
Arguments NotOk {A} status.
Arguments Ok {A} data.

(** *** Fetching *)

Definition getRegionInfo (regionId : Z) (response : fetched RegionInfo.t)
  : IO (option RegionInfo.t) :=
  match response with
  | Rejected =>
      run emit (console_error ("Error fetching region info " +:+ String_of_number regionId +:+ ":"));
      ret None
  | NotOk status =>
      run emit (console_warn ("Failed to fetch region info " +:+ String_of_number regionId
                                +:+ ": " +:+ String_of_number status));
      ret None
  | Ok data =>
      ret (Some {| RegionInfo.id := RegionInfo.id data;
                   RegionInfo.title := RegionInfo.title data;
                   RegionInfo.latitude := RegionInfo.latitude data;
                   RegionInfo.longitude := RegionInfo.longitude data;
                   RegionInfo.geometry := RegionInfo.geometry data |})
  end.

Definition getDangerLevelText (rating : Z) : string :=
  if rating =? -2 then "Insufficient Snow"
  else if rating =? 0 then "No Rating"
  else if rating =? 1 then "Low (1)"
  else if rating =? 2 then "Moderate (2)"
  else if rating =? 3 then "Considerable (3)"
  else if rating =? 4 then "High (4)"
  else if rating =? 5 then "Extreme (5)"
  else "Level " +:+ String_of_number rating.

(** *** Normalising a forecast *)

(** One turn of the loop over the altitude bands; the state is
    [(maxRating, ratingDescription)]. *)
Definition scanAltitude (acc : Z * string) (altitude : Altitude.t) : Z * string :=
  let '(maxRating, ratingDescription) := acc in
  if (Altitude.rating altitude >? maxRating) && (Altitude.rating altitude >? 0)
  then (Altitude.rating altitude, Altitude.description altitude)
  else (maxRating, ratingDescription).

(** Calculate overall danger level (use highest altitude rating) *)
Definition highestRating (altitudeDanger : option (list Altitude.t)) : Z * string :=
  match altitudeDanger with
  | Some ((_ :: _) as bands) => fold_left scanAltitude bands (0, "No rating available")
  | _ => (0, "No rating available")
  end.

(** [forecast.altitudeDanger?.find(a => a.rating === -2)] *)
Definition findInsufficientSnow (altitudeDanger : option (list Altitude.t))
  : option Altitude.t :=
  match altitudeDanger with
  | Some bands => List.find (fun a => Altitude.rating a =? -2) bands
  | None => None
  end.

(** Handle special case for insufficient snow *)
Definition withInsufficientSnow (altitudeDanger : option (list Altitude.t))
    (acc : Z * string) : Z * string :=
  let '(maxRating, ratingDescription) := acc in
  if maxRating =? 0 then
    match findInsufficientSnow altitudeDanger with
    | Some insufficientSnow => (0, Altitude.description insufficientSnow)
    | None => (maxRating, ratingDescription)
    end
  else (maxRating, ratingDescription).

Definition validHours (validPeriod : string) : Z :=
  if String.eqb validPeriod "48hrs" then 48 else 24.

(** Calculate expiry time *)
Definition expiry `{Host} (forecast : Forecast.t) : Date :=
  let created := Date_of_string (Forecast.created forecast) in
  Date_of_number
    (option_map (fun t => t + validHours (Forecast.validPeriod forecast) * 60 * 60 * 1000)
                (getTime created)).

(** Use important information if available, otherwise fall back to rating
    description *)
Definition describe (importantInformation ratingDescription : string) : string :=
  if truthy_string importantInformation
  then trim (replaceTags importantInformation)
  else ratingDescription.

(** The part of [getForecastData] behind the choice of [forecast]; the
    exception it can end in is the RangeError of [toISOString]. *)
Definition normalize `{Host} (regionId : Z) (forecast : Forecast.t)
  : completion AvalancheData.t :=
  let '(maxRating, ratingDescription) :=
    withInsufficientSnow (Forecast.altitudeDanger forecast)
      (highestRating (Forecast.altitudeDanger forecast)) in
  let expires := expiry forecast in
  let description := describe (Forecast.importantInformation forecast) ratingDescription in
  bind (toISOString expires) (fun expiresISO =>
  Return {| AvalancheData.location := "Region " +:+ String_of_number regionId;
            AvalancheData.level := Z.max 0 maxRating;
            AvalancheData.levelText := getDangerLevelText maxRating;
            AvalancheData.description := description;
            AvalancheData.start := Forecast.created forecast;
            AvalancheData.expires := expiresISO;
            AvalancheData.url := "https://www.avalanche.net.nz/region/" +:+ String_of_number regionId |}).

Definition getForecastData `{Host} (regionId : Z) (response : fetched ForecastList.t)
  : IO (option AvalancheData.t) :=
  let failed :=
    run emit (console_error ("Error fetching forecast " +:+ String_of_number regionId +:+ ":"));
    ret None in
  match response with
  | Rejected => failed
  | NotOk status =>
      run emit (console_warn ("Failed to fetch forecasts: " +:+ String_of_number status));
      ret None
  | Ok data =>
      match ForecastList.forecasts data with
      | None | Some [] =>
          run emit (console_warn "No forecasts available");
          ret None
      | Some forecasts =>
          (* Filter forecasts for this region and get the most recent one *)
          match List.filter (fun f => Forecast.regionId f =? regionId) forecasts with
          | [] =>
              run emit (console_warn ("No forecasts available for region "
                                        +:+ String_of_number regionId));
              ret None
          | forecast :: _ =>
              match normalize regionId forecast with
              | Return result => ret (Some result)
              | Throw _ => failed
              end
          end
      end
  end.

(** *** Dates of the features *)

Definition monthMap : gmap string Z :=
  {[ "January" := 0; "February" := 1; "March" := 2; "April" := 3;
     "May" := 4; "June" := 5; "July" := 6; "August" := 7;
     "September" := 8; "October" := 9; "November" := 10; "December" := 11 ]}.

(** [new Date().toISOString()]; the clock shows a valid time. *)
Definition nowISOString `{Host} : string := isoOfTime Date_now.

Definition parseDate `{Host} (dateStr : string) : string :=
  try_catch
    (match Date_of_string dateStr with
     | Some t => toISOString (Some t)
     | None =>
         (* Fallback for NZ date formats like "Monday 1st September 2025, 15:18" *)
         match match_nz dateStr with
         | Some (day, month, year, hour, minute) =>
             match monthMap !! month with
             | Some monthNum =>
                 match parseInt year, parseInt day, parseInt hour, parseInt minute with
                 | Some y, Some d, Some h, Some mi =>
                     toISOString (Date_of_number (Date_local y monthNum d h mi))
                 | _, _, _, _ => Throw RangeError
                 end
             | None => Return nowISOString
             end
         | None => Return nowISOString
         end
     end)
    (fun _ => nowISOString).

(** *** Region geometry *)

(** The body of the [try] that parses the region geometry: the value left
    in [polygonCoordinates] ([None] is [null]), or the exception thrown by
    [JSON.parse] or by a property read. *)
Definition readPolygon `{Host} (geometry : string) : completion value :=
  match JSON_parse geometry with
  | None => Throw SyntaxError
  | Some document =>
      let geometryData := Some document in
      bind (get geometryData "layers") (fun layers =>
      if truthy layers then
        bind (item layers 0) (fun first =>
        if truthy first then
          bind (get first "geometry") (fun geom =>
          if truthy geom then
            bind (get geom "type") (fun type =>
            if strictEqString type "Polygon" then
              bind (get geom "coordinates") (fun coordinates =>
              if truthy coordinates then Return coordinates else Return None)
            else Return None)
          else Return None)
        else Return None)
      else Return None)
  end.

(** Parse region geometry *)
Definition parseGeometry `{Host} (regionId : Z) (geometry : string) : IO value :=
  match readPolygon geometry with
  | Return polygonCoordinates => ret polygonCoordinates
  | Throw _ =>
      run emit (console_warn ("Failed to parse geometry for region "
                                +:+ String_of_number regionId +:+ ":"));
      ret None
  end.

(** *** Assembling the features of a region *)

Definition baseProperties `{Host} (regionId : Z) (regionInfo : RegionInfo.t)
    (data : AvalancheData.t) : Properties.base :=
  let startTime := parseDate (AvalancheData.start data) in
  let expiresTime :=
    if truthy_string (AvalancheData.expires data)
    then Some (parseDate (AvalancheData.expires data)) else None in
  let headline := "Avalanche Risk: " +:+ RegionInfo.title regionInfo +:+ " - "
                    +:+ AvalancheData.levelText data in
  {| Properties.callsign := headline;
     Properties.type := "a-o-X-i-g-h";
     Properties.time := startTime;
     Properties.start := startTime;
     Properties.stale := expiresTime;
     Properties.remarks :=
       join LF
         ([ headline;
            "Location: " +:+ RegionInfo.title regionInfo;
            "Danger Level: " +:+ AvalancheData.levelText data;
            "Description: " +:+ AvalancheData.description data;
            "Issued: " +:+ AvalancheData.start data ]
          ++ (if truthy_string (AvalancheData.expires data)
              then ["Valid Until: " +:+ AvalancheData.expires data] else []));
     Properties.links :=
       [ {| Link.uid := "avalanche-" +:+ String_of_number regionId;
            Link.relation := "r-u";
            Link.mime := "text/html";
            Link.url := AvalancheData.url data;
            Link.remarks := "Avalanche Forecast Details" |} ] |}.

Definition polygonFeature (regionId : Z) (base : Properties.base)
    (color : option string) (polygonCoordinates : json) : Feature.t :=
  {| Feature.id := "avalanche-" +:+ String_of_number regionId;
     Feature.type := "Feature";
     Feature.properties :=
       {| Properties.shared := base;
          Properties.own := Properties.OfPolygon color 0.4 2 "solid" 0.4 color |};
     Feature.geometry := Geometry.Polygon polygonCoordinates |}.

Definition pointFeature (regionId : Z) (base : Properties.base)
    (regionInfo : RegionInfo.t) (data : AvalancheData.t) : Feature.t :=
  {| Feature.id := "avalanche-" +:+ String_of_number regionId +:+ "-center";
     Feature.type := "Feature";
     Feature.properties :=
       {| Properties.shared := base;
          Properties.own :=
            Properties.OfPoint (lookupOrZero AVALANCHE_ICONS (AvalancheData.level data)) |};
     Feature.geometry :=
       Geometry.Point [RegionInfo.latitude regionInfo; RegionInfo.longitude regionInfo] |}.

(** The features that the loop body pushes once [data] and [regionInfo]
    are both there, given what [polygonCoordinates] holds. *)
Definition pushed `{Host} (regionId : Z) (regionInfo : RegionInfo.t)
    (data : AvalancheData.t) (polygonCoordinates : value) : list Feature.t :=
  let color := lookupOrZero AVALANCHE_COLORS (AvalancheData.level data) in
  let base := baseProperties regionId regionInfo data in
  (* Add polygon feature if geometry available *)
  (match polygonCoordinates with
   | Some coordinates =>
       if truthy polygonCoordinates
       then [polygonFeature regionId base color coordinates] else []
   | None => []
   end)
  (* Add center point with icon *)
  ++ [pointFeature regionId base regionInfo data].

(** *** The run *)

(** What the surroundings answer during one run: the configuration read by
    [this.env], the two responses per region, and whether [this.submit]
    goes through. *)
Record Surroundings := {
  env_Timeout : completion Z;
  regionResponse : Z -> fetched RegionInfo.t;
  forecastResponse : Z -> fetched ForecastList.t;
  submitted : completion unit
}.

(** One turn of the loop over [VALID_REGIONS]. *)
Definition visit `{Host} (w : Surroundings) (features : list Feature.t) (regionId : Z)
  : IO (list Feature.t) :=
  do regionInfo <- getRegionInfo regionId (regionResponse w regionId);
  do data <- getForecastData regionId (forecastResponse w regionId);
  match data, regionInfo with
  | Some data, Some regionInfo =>
      do polygonCoordinates <- parseGeometry regionId (RegionInfo.geometry regionInfo);
      let features := features ++ pushed regionId regionInfo data polygonCoordinates in
      run emit (console_log
                  ("Added avalanche data for " +:+ RegionInfo.title regionInfo
                     +:+ " (Level " +:+ String_of_number (AvalancheData.level data)
                     +:+ ") with "
                     +:+ (if truthy polygonCoordinates then "polygon" else "point only")));
      ret features
  | _, _ =>
      run emit (console_warn ("No data for region " +:+ String_of_number regionId));
      ret features
  end.

Fixpoint visitAll `{Host} (w : Surroundings) (features : list Feature.t)
    (regions : list Z) : IO (list Feature.t) :=
  match regions with
  | [] => ret features
  | regionId :: rest =>
      do features <- visit w features regionId;
      visitAll w features rest
  end.

Definition control `{Host} (w : Surroundings) : IO (completion unit) :=
  match env_Timeout w with
  | Throw error =>
      run emit (console_error "Error in avalanche ETL:");
      ret (Throw error)
  | Return _ =>
      run emit (console_log "ok - Starting avalanche data scraping");
      do features <- visitAll w [] VALID_REGIONS;
      let fc := {| FeatureCollection.type := "FeatureCollection";
                   FeatureCollection.features := features |} in
      run emit (console_log ("ok - Generated "
                               +:+ String_of_number (Z.of_nat (length features))
                               +:+ " avalanche forecast features"));
      run emit (submit fc);
      match submitted w with
      | Return _ =>
          run emit (console_log "ok - submitted avalanche forecast data");
          ret (Return tt)
      | Throw error =>
          run emit (console_error "Error in avalanche ETL:");
          ret (Throw error)
      end
  end.

End Task.

(** ** A host to run the task on

    [reference] is an engine that keeps to ECMA-262 and adds nothing of its
    own, with its clock and time zone set: [Date.parse] reads the date-time
    string format and nothing else, [JSON.parse] reads the JSON grammar, the
    local time zone is UTC. *)

Module Reference.
Import JS.

(** *** [Date.parse] on the date-time string format *)

(** Exactly [n] decimal digits. *)
Fixpoint fixedDigits (n : nat) (acc : Z) (s : string) : option (Z * string) :=
  match n with
  | O => Some (acc, s)
  | S n' =>
      match s with
      | String c r =>
          match digit c with
          | Some d => fixedDigits n' (10 * acc + d) r
          | None => None
          end
      | EmptyString => None
      end
  end.

Definition year (s : string) : option (Z * string) :=
  match s with
  | String "+" r => fixedDigits 6 0 r
  | String "-" r =>
      match fixedDigits 6 0 r with
      | Some (y, r') => if y =? 0 then None else Some (- y, r')
      | None => None
      end
  | _ => fixedDigits 4 0 s
  end.

(** [-MM] or [-DD], when there is one. *)
Definition dashed (s : string) : option (option Z * string) :=
  match s with
  | String "-" r =>
      match fixedDigits 2 0 r with
      | Some (n, r') => Some (Some n, r')
      | None => None
      end
  | _ => Some (None, s)
  end.

(** [:ss] and [.sss], when they are there. *)
Definition seconds (s : string) : option (Z * Z * string) :=
  match s with
  | String ":" r =>
      match fixedDigits 2 0 r with
      | Some (sec, String "." r') =>
          match fixedDigits 3 0 r' with
          | Some (ms, r'') => Some (sec, ms, r'')
          | None => None
          end
      | Some (sec, r') => Some (sec, 0, r')
      | None => None
      end
  | _ => Some (0, 0, s)
  end.

(** The UTC offset in minutes that ends the string; none is local time,
    which is UTC here. *)
Definition offset (s : string) : option Z :=
  match s with
  | EmptyString => Some 0
  | String "Z" EmptyString => Some 0
  | String sign r =>
      match fixedDigits 2 0 r with
      | Some (h, String ":" r') =>
          match fixedDigits 2 0 r' with
          | Some (m, EmptyString) =>
              if (h <=? 23) && (m <=? 59) then
                if Ascii.eqb sign "+" then Some (h * 60 + m)
                else if Ascii.eqb sign "-" then Some (- (h * 60 + m))
                else None
              else None
          | _ => None
          end
      | _ => None
      end
  end.

Definition isLeap (y : Z) : bool :=
  (y mod 4 =? 0) && (negb (y mod 100 =? 0) || (y mod 400 =? 0)).

Definition daysInMonth (y m : Z) : Z :=
  if m =? 2 then (if isLeap y then 29 else 28)
  else if (m =? 4) || (m =? 6) || (m =? 9) || (m =? 11) then 30
  else 31.

(** The time of day in milliseconds and the offset in minutes. *)
Definition timeOfDay (s : string) : option (Z * Z) :=
  match s with
  | EmptyString => Some (0, 0)
  | String "T" r =>
      match fixedDigits 2 0 r with
      | Some (h, String ":" r') =>
          match fixedDigits 2 0 r' with
          | Some (mi, r'') =>
              match seconds r'' with
              | Some (sec, ms, r''') =>
                  match offset r''' with
                  | Some off =>
                      let t := h * 3600000 + mi * 60000 + sec * 1000 + ms in
                      if ((h <=? 23) && (mi <=? 59) && (sec <=? 59)) || (t =? msPerDay)
                      then Some (t, off) else None
                  | None => None
                  end
              | None => None
              end
          | None => None
          end
      | _ => None
      end
  | _ => None
  end.

Definition isoParse (s : string) : option Z :=
  match year s with
  | Some (y, r) =>
      match dashed r with
      | Some (month, r') =>
          match (match month with
                 | Some _ => dashed r'
                 | None => Some (None, r')
                 end) with
          | Some (day, r'') =>
              let m := default 1 month in
              let d := default 1 day in
              match timeOfDay r'' with
              | Some (t, off) =>
                  if (1 <=? m) && (m <=? 12) && (1 <=? d) && (d <=? daysInMonth y m)
                  then TimeClip (days_of_civil y m d * msPerDay + t - off * 60000)
                  else None
              | None => None
              end
          | None => None
          end
      | None => None
      end
  | None => None
  end.

(** [new Date(y, m, d, h, min)] in the UTC time zone. *)
Definition utcOfFields (y m d h mi : Z) : option Z :=
  let y := if (0 <=? y) && (y <=? 99) then 1900 + y else y in
  Some ((days_of_civil (y + m / 12) (m mod 12 + 1) 1 + d - 1) * msPerDay
        + h * 3600000 + mi * 60000).

(** *** The pattern of [parseDate] *)

(** A character class repeated between [least] and [most] times, as many
    times as the rest of the pattern allows; [keep] marks a capturing
    group. *)
Record atom := {
  class : ascii -> bool;
  least : nat;
  most : option nat;
  keep : bool
}.

Definition isDigit (c : ascii) : bool :=
  match digit c with Some _ => true | None => false end.

Definition isWord (c : ascii) : bool :=
  let n := nat_of_ascii c in
  (isDigit c || ((65 <=? n) && (n <=? 90)) || ((97 <=? n) && (n <=? 122)) || (n =? 95))%nat.

Definition within (n : nat) (most : option nat) : bool :=
  match most with
  | Some k => (n <? k)%nat
  | None => true
  end.

(** How many characters of the class start [s], up to [most]. *)
Fixpoint span (class : ascii -> bool) (most : option nat) (n : nat) (s : string) : nat :=
  match s with
  | String c r => if class c && within n most then span class most (S n) r else n
  | EmptyString => n
  end.

Fixpoint dropChars (n : nat) (s : string) : string :=
  match n, s with
  | S n', String _ r => dropChars n' r
  | _, _ => s
  end.

(** The captures of a match of the atoms at the start of [s]. *)
Fixpoint matchAtoms (atoms : list atom) (s : string) : option (list string) :=
  match atoms with
  | [] => Some []
  | a :: rest =>
      (fix attempt (n : nat) : option (list string) :=
         match (if (least a <=? n)%nat then matchAtoms rest (dropChars n s) else None) with
         | Some captures =>
             Some (if keep a then substring 0 n s :: captures else captures)
         | None =>
             match n with
             | S n' => attempt n'
             | O => None
             end
         end) (span (class a) (most a) 0%nat s)
  end.

(** The leftmost match. *)
Fixpoint search (atoms : list atom) (s : string) : option (list string) :=
  match matchAtoms atoms s with
  | Some captures => Some captures
  | None =>
      match s with
      | String _ r => search atoms r
      | EmptyString => None
      end
  end.

Definition some (class : ascii -> bool) (keep : bool) : atom :=
  {| class := class; least := 1; most := None; keep := keep |}.
Definition any (class : ascii -> bool) : atom :=
  {| class := class; least := 0; most := None; keep := false |}.
Definition times (class : ascii -> bool) (least most : nat) (keep : bool) : atom :=
  {| class := class; least := least; most := Some most; keep := keep |}.

(** [/(\w+)\s+(\d+)\w*\s+(\w+)\s+(\d{4}),\s*(\d{1,2}):(\d{2})/] *)
Definition nzPattern : list atom :=
  [ some isWord true; some isWhiteSpace false; some isDigit true; any isWord;
    some isWhiteSpace false; some isWord true; some isWhiteSpace false;
    times isDigit 4 4 true; times (Ascii.eqb ",") 1 1 false; any isWhiteSpace;
    times isDigit 1 2 true; times (Ascii.eqb ":") 1 1 false; times isDigit 2 2 true ].

Definition matchNZ (s : string) : option (string * string * string * string * string) :=
  match search nzPattern s with
  | Some [_; day; month; year; hour; minute] => Some (day, month, year, hour, minute)
  | _ => None
  end.

(** *** [JSON.parse] *)

Definition quote : ascii := ascii_of_nat 34.
Definition backslash : ascii := ascii_of_nat 92.

Fixpoint skipSpace (s : string) : string :=
  match s with
  | String c r =>
      let n := nat_of_ascii c in
      if ((n =? 32) || (n =? 9) || (n =? 10) || (n =? 13))%nat then skipSpace r else s
  | EmptyString => s
  end.

(** [s] behind the prefix [word]. *)
Fixpoint behind (word s : string) : option string :=
  match word, s with
  | EmptyString, _ => Some s
  | String c w, String c' r => if Ascii.eqb c c' then behind w r else None
  | String _ _, EmptyString => None
  end.

(** The digits that start [s]: their value, their number, what follows. *)
Fixpoint leadingDigits (acc : Z) (n : Z) (s : string) : Z * Z * string :=
  match s with
  | String c r =>
      match digit c with
      | Some d => leadingDigits (10 * acc + d) (n + 1) r
      | None => (acc, n, s)
      end
  | EmptyString => (acc, n, s)
  end.

Definition power10 (m e : Z) : Q :=
  if 0 <=? e then inject_Z (m * 10 ^ e) else Qmake m (Z.to_pos (10 ^ (- e))).

Definition numberLiteral (s : string) : option (json * string) :=
  let '(negative, s1) :=
    match s with
    | String "-" r => (true, r)
    | _ => (false, s)
    end in
  let '(int, intLength, s2) := leadingDigits 0 0 s1 in
  let leadingZero :=
    match s1 with
    | String "0" _ => 1 <? intLength
    | _ => false
    end in
  if (intLength =? 0) || leadingZero then None else
  let fraction :=
    match s2 with
    | String "." r =>
        let '(m, k, s3) := leadingDigits int 0 r in
        if k =? 0 then None else Some (m, k, s3)
    | _ => Some (int, 0, s2)
    end in
  match fraction with
  | None => None
  | Some (m, k, s3) =>
      let exponent :=
        match s3 with
        | String c r =>
            if Ascii.eqb c "e" || Ascii.eqb c "E" then
              let '(minus, r1) :=
                match r with
                | String "-" r1 => (true, r1)
                | String "+" r1 => (false, r1)
                | _ => (false, r)
                end in
              let '(e, n, s4) := leadingDigits 0 0 r1 in
              if n =? 0 then None else Some (if minus then - e else e, s4)
            else Some (0, s3)
        | EmptyString => Some (0, s3)
        end in
      match exponent with
      | None => None
      | Some (e, s4) =>
          Some (JNumber (power10 (if negative then - m else m) (e - k)), s4)
      end
  end.

Definition hexDigit (c : ascii) : option Z :=
  let n := Z.of_nat (nat_of_ascii c) in
  if (48 <=? n) && (n <=? 57) then Some (n - 48)
  else if (65 <=? n) && (n <=? 70) then Some (n - 55)
  else if (97 <=? n) && (n <=? 102) then Some (n - 87)
  else None.

(** The characters of a string literal behind its opening quote.  Strings
    hold code units below 256, so a [\u] escape names one of those. *)
Fixpoint stringLiteral (s : string) : option (string * string) :=
  match s with
  | EmptyString => None
  | String c r =>
      if Ascii.eqb c quote then Some (EmptyString, r)
      else if Ascii.eqb c backslash then
        match r with
        | String e r1 =>
            let plain (c1 : ascii) :=
              match stringLiteral r1 with
              | Some (chars, rest) => Some (String c1 chars, rest)
              | None => None
              end in
            if Ascii.eqb e quote then plain quote
            else if Ascii.eqb e backslash then plain backslash
            else if Ascii.eqb e "/" then plain "/"%char
            else if Ascii.eqb e "b" then plain (ascii_of_nat 8)
            else if Ascii.eqb e "f" then plain (ascii_of_nat 12)
            else if Ascii.eqb e "n" then plain (ascii_of_nat 10)
            else if Ascii.eqb e "r" then plain (ascii_of_nat 13)
            else if Ascii.eqb e "t" then plain (ascii_of_nat 9)
            else if Ascii.eqb e "u" then
              match r1 with
              | String "0" (String "0" (String h (String l r2))) =>
                  match hexDigit h, hexDigit l, stringLiteral r2 with
                  | Some a, Some b, Some (chars, rest) =>
                      Some (String (ascii_of_nat (Z.to_nat (16 * a + b))) chars, rest)
                  | _, _, _ => None
                  end
              | _ => None
              end
            else None
        | EmptyString => None
        end
      else if (nat_of_ascii c <? 32)%nat then None
      else
        match stringLiteral r with
        | Some (chars, rest) => Some (String c chars, rest)
        | None => None
        end
  end.

(** A value at the start of [s] and what follows it; [elements] and
    [members] read on behind an opening bracket or a comma. *)
Fixpoint jsonValue (fuel : nat) (s : string) : option (json * string) :=
  match fuel with
  | O => None
  | S fuel' =>
      match skipSpace s with
      | EmptyString => None
      | String c r as s' =>
          if Ascii.eqb c "n" then option_map (pair JNull) (behind "ull" r)
          else if Ascii.eqb c "t" then option_map (pair (JBool true)) (behind "rue" r)
          else if Ascii.eqb c "f" then option_map (pair (JBool false)) (behind "alse" r)
          else if Ascii.eqb c quote then
            match stringLiteral r with
            | Some (chars, rest) => Some (JString chars, rest)
            | None => None
            end
          else if Ascii.eqb c "[" then
            match skipSpace r with
            | String "]" rest => Some (JArray [], rest)
            | _ => elements fuel' [] r
            end
          else if Ascii.eqb c "{" then
            match skipSpace r with
            | String "}" rest => Some (JObject ∅, rest)
            | _ => members fuel' ∅ r
            end
          else numberLiteral s'
      end
  end
with elements (fuel : nat) (done : list json) (s : string) : option (json * string) :=
  match fuel with
  | O => None
  | S fuel' =>
      match jsonValue fuel' s with
      | Some (v, r) =>
          match skipSpace r with
          | String "," rest => elements fuel' (done ++ [v]) rest
          | String "]" rest => Some (JArray (done ++ [v]), rest)
          | _ => None
          end
      | None => None
      end
  end
with members (fuel : nat) (done : gmap string json) (s : string) : option (json * string) :=
  match fuel with
  | O => None
  | S fuel' =>
      match skipSpace s with
      | String c r =>
          if Ascii.eqb c quote then
            match stringLiteral r with
            | Some (name, r1) =>
                match skipSpace r1 with
                | String ":" r2 =>
                    match jsonValue fuel' r2 with
                    | Some (v, r3) =>
                        match skipSpace r3 with
                        | String "," rest => members fuel' (<[name := v]> done) rest
                        | String "}" rest => Some (JObject (<[name := v]> done), rest)
                        | _ => None
                        end
                    | None => None
                    end
                | _ => None
                end
            | None => None
            end
          else None
      | EmptyString => None
      end
  end.

Definition jsonParse (s : string) : option json :=
  match jsonValue (2 * String.length s + 2) s with
  | Some (v, rest) =>
      match skipSpace rest with
      | EmptyString => Some v
      | String _ _ => None
      end
  | None => None
  end.

(** *** The host *)

(** The clock stands at 2025-09-01T03:18:00.000Z. *)
Definition reference : Host :=
  {| Date_parse := isoParse;
     JSON_parse := jsonParse;
     Date_local := utcOfFields;
     Date_now := 1756696680000;
     match_nz := matchNZ |}.

(** JSON text, written with ['] for the quote. *)
Fixpoint text (s : string) : string :=
  match s with
  | String c r => String (if Ascii.eqb c "'" then quote else c) (text r)
  | EmptyString => EmptyString
  end.

End Reference.

(** ** The vocabulary of the properties *)

Import JS Task.

Section Vocabulary.
Context {H : Host}.

(** The six levels of the tables. *)
Definition tabled (level : Z) : bool := (0 <=? level) && (level <=? 5).

(** The altitude bands of a forecast; none when the member is missing. *)
Definition bandsOf (forecast : Forecast.t) : list Altitude.t :=
  default [] (Forecast.altitudeDanger forecast).

(** The record that [normalize] builds around an expiry. *)
Definition normalized (regionId : Z) (forecast : Forecast.t) (expires : Z)
  : AvalancheData.t :=
  let chosen := withInsufficientSnow (Forecast.altitudeDanger forecast)
                  (highestRating (Forecast.altitudeDanger forecast)) in
  {| AvalancheData.location := "Region " +:+ String_of_number regionId;
     AvalancheData.level := Z.max 0 (fst chosen);
     AvalancheData.levelText := getDangerLevelText (fst chosen);
     AvalancheData.description :=
       describe (Forecast.importantInformation forecast) (snd chosen);
     AvalancheData.start := Forecast.created forecast;
     AvalancheData.expires := isoOfTime expires;
     AvalancheData.url :=
       "https://www.avalanche.net.nz/region/" +:+ String_of_number regionId |}.

(** Text made of markup tags and white space only: a tag opens with [<],
    closes with the first [>] behind it, and holds no [>] in between. *)
Inductive markupOnly : string -> Prop :=
| markup_end : markupOnly EmptyString
| markup_space (c : ascii) (rest : string) :
    isWhiteSpace c = true -> markupOnly rest -> markupOnly (String c rest)
| markup_tag (body rest : string) :
    hasGt body = false -> markupOnly rest ->
    markupOnly ("<" +:+ body +:+ ">" +:+ rest).

(** White space and nothing else. *)
Fixpoint blank (s : string) : bool :=
  match s with
  | EmptyString => true
  | String c r => isWhiteSpace c && blank r
  end.

Definition matching (regionId : Z) (f : Forecast.t) : bool :=
  Forecast.regionId f =? regionId.

(** The entry that [getForecastData] normalises: the first of the list
    whose [regionId] is the region's. *)
Definition firstMatching (regionId : Z) (data : ForecastList.t) : option Forecast.t :=
  match ForecastList.forecasts data with
  | Some forecasts => head (List.filter (matching regionId) forecasts)
  | None => None
  end.

(** A payload is well formed when it holds a list of forecasts and the
    creation time and validity period of each entry give a Date: [created]
    parses and the validity period ends within the range of Date (see
    [expiry_valid_iff]). *)
Definition wellFormed (data : ForecastList.t) : Prop :=
  exists forecasts,
    ForecastList.forecasts data = Some forecasts
    /\ Forall (fun f => is_Some (expiry f)) forecasts.

(** The value of [geometryData.layers[0].geometry]; reading through a
    [null] or a missing member on the way is a TypeError. *)
Definition firstLayerGeometry (document : json) : completion value :=
  bind (get (Some document) "layers") (fun layers =>
  bind (item layers 0) (fun first =>
  get first "geometry")).

(** The geometry strings of C4: text that is not JSON; the document
    [null]; a document without [layers]; a first layer whose geometry has a
    [type] other than "Polygon"; a first layer whose geometry has no
    [coordinates]; a document, or [layers], that is an empty array. *)
Inductive unusable (geometry : string) : Prop :=
| invalid_json :
    JSON_parse geometry = None -> unusable geometry
| null_document :
    JSON_parse geometry = Some JNull -> unusable geometry
| lacks_layers (document : json) :
    JSON_parse geometry = Some document ->
    get (Some document) "layers" = Return None ->
    unusable geometry
| other_type (document : json) (geom type : value) :
    JSON_parse geometry = Some document ->
    firstLayerGeometry document = Return geom ->
    get geom "type" = Return type ->
    type <> Some (JString "Polygon") ->
    unusable geometry
| lacks_coordinates (document : json) (geom : value) :
    JSON_parse geometry = Some document ->
    firstLayerGeometry document = Return geom ->
    get geom "coordinates" = Return None ->
    unusable geometry
| empty_array :
    JSON_parse geometry = Some (JArray []) -> unusable geometry
| empty_layers (document : json) :
    JSON_parse geometry = Some document ->
    get (Some document) "layers" = Return (Some (JArray [])) ->
    unusable geometry.

(** The collections handed to [this.submit] in a trace, in order. *)
Fixpoint submissions (trace : list event) : list FeatureCollection.t :=
  match trace with
  | [] => []
  | submit fc :: rest => fc :: submissions rest
  | _ :: rest => submissions rest
  end.

Definition isPoint (f : Feature.t) : bool :=
  match Feature.geometry f with
  | Geometry.Point _ => true
  | Geometry.Polygon _ => false
  end.

(** What the two fetches of a region's turn give. *)
Definition regionInfoOf (w : Surroundings) (regionId : Z) : option RegionInfo.t :=
  fst (getRegionInfo regionId (regionResponse w regionId)).

Definition dataOf (w : Surroundings) (regionId : Z) : option AvalancheData.t :=
  fst (getForecastData regionId (forecastResponse w regionId)).

(** The features that a region's turn adds. *)
Definition contribution (w : Surroundings) (regionId : Z) : list Feature.t :=
  match dataOf w regionId, regionInfoOf w regionId with
  | Some data, Some regionInfo =>
      pushed regionId regionInfo data
        (fst (parseGeometry regionId (RegionInfo.geometry regionInfo)))
  | _, _ => []
  end.

(** The collection that a run hands over. *)
Definition collected (w : Surroundings) : FeatureCollection.t :=
  {| FeatureCollection.type := "FeatureCollection";
     FeatureCollection.features := flat_map (contribution w) VALID_REGIONS |}.

(** No [<] of [s] has a [>] behind it: nothing is left for the pattern of
    [getForecastData] to match. *)
Fixpoint noTag (s : string) : bool :=
  match s with
  | EmptyString => true
  | String c r => negb (isLt c && hasGt r) && noTag r
  end.

(** Does a [<] occur in [s]? *)
Fixpoint hasLt (s : string) : bool :=
  match s with
  | EmptyString => false
  | String c r => isLt c || hasLt r
  end.

Definition startsWithSpace (s : string) : bool :=
  match s with
  | EmptyString => false
  | String c _ => isWhiteSpace c
  end.

Fixpoint endsWithSpace (s : string) : bool :=
  match s with
  | EmptyString => false
  | String c EmptyString => isWhiteSpace c
  | String _ r => endsWithSpace r
  end.

(** The ids that the features of a region can have, and those of the whole
    catalog in the order of the loop. *)
Definition idsOf (regionId : Z) : list string :=
  [ "avalanche-" +:+ String_of_number regionId;
    "avalanche-" +:+ String_of_number regionId +:+ "-center" ].

Definition catalogIds : list string := flat_map idsOf VALID_REGIONS.

(** The console messages of a trace. *)
Definition isConsole (e : event) : bool :=
  match e with
  | submit _ => false
  | _ => true
  end.

(** What a document must look like for [polygonCoordinates] to be set to
    [coordinates]: every step of [layers[0].geometry] is truthy, the type
    is the string "Polygon", and the coordinates are truthy. *)
Definition polygonAt (document : json) (coordinates : json) : Prop :=
  exists layers first geom,
    get (Some document) "layers" = Return layers /\ truthy layers = true
    /\ item layers 0 = Return first /\ truthy first = true
    /\ get first "geometry" = Return geom /\ truthy geom = true
    /\ get geom "type" = Return (Some (JString "Polygon"))
    /\ get geom "coordinates" = Return (Some coordinates)
    /\ truthy (Some coordinates) = true.

End Vocabulary.

(** ** The task on the reference host *)

Module Sample.
Import Reference.

Definition band (rating : Z) (description : string) : Altitude.t :=
  {| Altitude.rating := rating; Altitude.description := description |}.

(** Region 1: a rated forecast, valid for a day. *)
Definition considerable : Forecast.t :=
  {| Forecast.regionId := 1;
     Forecast.altitudeDanger := Some [band 3 "Considerable"];
     Forecast.created := "2025-01-01T00:00:00Z";
     Forecast.validPeriod := "24hrs";
     Forecast.importantInformation := EmptyString |}.

(** Region 2: too little snow to rate, valid for two days. *)
Definition insufficient : Forecast.t :=
  {| Forecast.regionId := 2;
     Forecast.altitudeDanger := Some [band 0 "None"; band (-2) "Insufficient Snow data"];
     Forecast.created := "2025-01-01T06:30:00.250Z";
     Forecast.validPeriod := "48hrs";
     Forecast.importantInformation := EmptyString |}.

(** Region 4: important information that is markup and nothing else. *)
Definition hollow : Forecast.t :=
  {| Forecast.regionId := 4;
     Forecast.altitudeDanger := Some [band 2 "Moderate"];
     Forecast.created := "2025-01-01T00:00:00Z";
     Forecast.validPeriod := "24hrs";
     Forecast.importantInformation := "<p> <br/></p> " |}.

(** A second entry for region 1, behind the first. *)
Definition older : Forecast.t :=
  {| Forecast.regionId := 1;
     Forecast.altitudeDanger := Some [band 1 "Low"];
     Forecast.created := "2024-12-31T00:00:00Z";
     Forecast.validPeriod := "24hrs";
     Forecast.importantInformation := "Old" |}.

Definition payload : ForecastList.t :=
  {| ForecastList.forecasts := Some [considerable; insufficient; hollow; older] |}.

(** A forecast created at the last instant a Date can hold. *)
Definition lastInstant : Forecast.t :=
  {| Forecast.regionId := 1;
     Forecast.altitudeDanger := Some [band 3 "Considerable"];
     Forecast.created := "+275760-09-13T00:00:00.000Z";
     Forecast.validPeriod := "24hrs";
     Forecast.importantInformation := EmptyString |}.

Definition polygonText : string :=
  text "{'layers':[{'geometry':{'type':'Polygon','coordinates':[[[170.5,-43.5],[171,-44],[170.5,-43.5]]]}}]}".

Definition region (id : Z) (title geometry : string) : RegionInfo.t :=
  {| RegionInfo.id := id;
     RegionInfo.title := title;
     RegionInfo.latitude := -43.5;
     RegionInfo.longitude := 170.5;
     RegionInfo.geometry := geometry |}.

(** A run in which region 1 has a polygon, regions 2 and 4 have geometry
    that cannot be used, the region endpoint fails for 5 and 6, and the
    other regions have no forecast. *)
Definition surroundings : Surroundings :=
  {| env_Timeout := Return 30000;
     regionResponse regionId :=
       if regionId =? 1 then Ok (region 1 "Tongariro" polygonText)
       else if regionId =? 2 then Ok (region 2 "Taranaki" "not json")
       else if regionId =? 4 then Ok (region 4 "Nelson Lakes" "[]")
       else if regionId =? 5 then NotOk 500
       else if regionId =? 6 then Rejected
       else Ok (region regionId "Elsewhere" "{}");
     forecastResponse _ := Ok payload;
     submitted := Return tt |}.

(** A run in which the list of forecasts is empty. *)
Definition noForecasts : Surroundings :=
  {| env_Timeout := Return 30000;
     regionResponse regionId := Ok (region regionId "Somewhere" polygonText);
     forecastResponse _ := Ok {| ForecastList.forecasts := Some [] |};
     submitted := Return tt |}.

(** Region 7: several bands, two of them with the highest rating. *)
Definition layered : Forecast.t :=
  {| Forecast.regionId := 7;
     Forecast.altitudeDanger :=
       Some [band 2 "Below treeline"; band 4 "Alpine"; band (-2) "Valley";
             band 4 "High alpine"; band 3 "Subalpine"];
     Forecast.created := "2025-06-01T18:00:00+12:00";
     Forecast.validPeriod := "48hrs";
     Forecast.importantInformation := EmptyString |}.

(** Region 8: a rating above the scale. *)
Definition offScale : Forecast.t :=
  {| Forecast.regionId := 8;
     Forecast.altitudeDanger := Some [band 7 "Off the scale"];
     Forecast.created := "2025-06-01T18:00:00+12:00";
     Forecast.validPeriod := "24hrs";
     Forecast.importantInformation := EmptyString |}.

(** Region 9: important information with markup and white space around. *)
Definition advisory : Forecast.t :=
  {| Forecast.regionId := 9;
     Forecast.altitudeDanger := Some [band 3 "Considerable"];
     Forecast.created := "2025-06-01T18:00:00+12:00";
     Forecast.validPeriod := "24hrs";
     Forecast.importantInformation := "  <p>Wind slab</p> <b>above</b> 1500m " |}.

Definition winter : ForecastList.t :=
  {| ForecastList.forecasts := Some [layered; offScale; advisory] |}.

(** The records of regions 1 and 2 in that run. *)
Definition considerableData : AvalancheData.t :=
  normalized 1 considerable 1735776000000.

Definition insufficientData : AvalancheData.t :=
  normalized 2 insufficient 1735885800250.

End Sample.

(** ** Properties *)

(** *** The level tables *)

Lemma colors_tabled (level : Z) :
  tabled level = true -> exists c, AVALANCHE_COLORS !! level = Some c /\ truthy_string c = true.
Proof.
  unfold tabled. intros Hl.
  assert (Hcases : level = 0 \/ level = 1 \/ level = 2 \/ level = 3 \/ level = 4 \/ level = 5) by lia.
  destruct Hcases as [-> | [-> | [-> | [-> | [-> | ->]]]]]; eexists; split; reflexivity.
Qed.

Lemma icons_tabled (level : Z) :
  tabled level = true -> exists c, AVALANCHE_ICONS !! level = Some c /\ truthy_string c = true.
Proof.
  unfold tabled. intros Hl.
  assert (Hcases : level = 0 \/ level = 1 \/ level = 2 \/ level = 3 \/ level = 4 \/ level = 5) by lia.
  destruct Hcases as [-> | [-> | [-> | [-> | [-> | ->]]]]]; eexists; split; reflexivity.
Qed.

Lemma colors_untabled (level : Z) :
  tabled level = false -> AVALANCHE_COLORS !! level = None.
Proof.
  unfold tabled, AVALANCHE_COLORS. intros Hl.
  rewrite !lookup_insert_ne by lia.
  apply lookup_singleton_ne. lia.
Qed.

Lemma icons_untabled (level : Z) :
  tabled level = false -> AVALANCHE_ICONS !! level = None.
Proof.
  unfold tabled, AVALANCHE_ICONS. intros Hl.
  rewrite !lookup_insert_ne by lia.
  apply lookup_singleton_ne. lia.
Qed.

(** C8. For every integer level the colour lookup and the icon lookup of
    [control] are defined: each gives the table's entry for the level when
    the table has one, and the entry of level 0 when it has none. *)
Theorem lookupOrZero_defined (level : Z) :
  (exists color,
      lookupOrZero AVALANCHE_COLORS level = Some color
      /\ (AVALANCHE_COLORS !! level = Some color
          \/ (AVALANCHE_COLORS !! level = None /\ AVALANCHE_COLORS !! 0 = Some color)))
  /\ (exists icon,
         lookupOrZero AVALANCHE_ICONS level = Some icon
         /\ (AVALANCHE_ICONS !! level = Some icon
             \/ (AVALANCHE_ICONS !! level = None /\ AVALANCHE_ICONS !! 0 = Some icon))).
Proof.
  unfold lookupOrZero. destruct (tabled level) eqn:Hl.
  - destruct (colors_tabled level Hl) as (c & Hc & Hct).
    destruct (icons_tabled level Hl) as (i & Hi & Hit).
    rewrite Hc, Hi. simpl. rewrite Hct, Hit.
    split; eexists; split; try reflexivity; now left.
  - rewrite (colors_untabled level Hl), (icons_untabled level Hl). simpl.
    split; eexists; split; try reflexivity; right; split; reflexivity.
Qed.

(** *** The level text *)

Example String_of_number_6 : String_of_number 6 = "6".
Proof. reflexivity. Qed.

Example String_of_number_minus_1 : String_of_number (-1) = "-1".
Proof. reflexivity. Qed.

Example String_of_number_15 : String_of_number 15 = "15".
Proof. reflexivity. Qed.

(** Up to 2^53 in size a number is printed as its decimal digits. *)
Lemma String_of_number_decimal (n : Z) :
  Z.abs n <= 2 ^ 53 -> String_of_number n = decimal n.
Proof.
  intros Hn. unfold String_of_number, toDouble. cbv zeta.
  replace (Z.abs n <=? 2 ^ 53) with true by lia.
  replace (Z.abs n <=? 2 ^ 53) with true by lia.
  reflexivity.
Qed.

(** Past 2^53 the digits are the fewest that name the double, and from
    1e21 on the exponent form is used. *)
Example getDangerLevelText_2_60 :
  getDangerLevelText (2 ^ 60) = "Level 1152921504606847000".
Proof. vm_compute. reflexivity. Qed.

Example getDangerLevelText_1e21 : getDangerLevelText (10 ^ 21) = "Level 1e+21".
Proof. vm_compute. reflexivity. Qed.

Example String_of_number_large :
  map String_of_number [2 ^ 53 + 2; 2 ^ 63; 10 ^ 23; 2 ^ 70; - (10 ^ 21)]
  = ["9007199254740994"; "9223372036854776000"; "1e+23"; "1.1805916207174113e+21";
     "-1e+21"].
Proof. vm_compute. reflexivity. Qed.

(** C1. [getDangerLevelText] answers every integer: the seven ratings it
    names get their labels, and every other integer N gets "Level N", N
    being printed as the template literal prints a number, which up to 2^53
    in size is in its decimal digits. *)
Theorem getDangerLevelText_total :
  getDangerLevelText (-2) = "Insufficient Snow"
  /\ getDangerLevelText 0 = "No Rating"
  /\ getDangerLevelText 1 = "Low (1)"
  /\ getDangerLevelText 2 = "Moderate (2)"
  /\ getDangerLevelText 3 = "Considerable (3)"
  /\ getDangerLevelText 4 = "High (4)"
  /\ getDangerLevelText 5 = "Extreme (5)"
  /\ (forall rating : Z,
         rating <> -2 -> ~ (0 <= rating <= 5) ->
         getDangerLevelText rating = "Level " +:+ String_of_number rating)
  /\ (forall rating : Z,
         rating <> -2 -> ~ (0 <= rating <= 5) -> Z.abs rating <= 2 ^ 53 ->
         getDangerLevelText rating = "Level " +:+ decimal rating).
Proof.
  assert (Hother : forall rating : Z,
             rating <> -2 -> ~ (0 <= rating <= 5) ->
             getDangerLevelText rating = "Level " +:+ String_of_number rating).
  { intros rating Hinsufficient Hscale. unfold getDangerLevelText.
    repeat match goal with
           | |- context [?a =? ?b] => destruct (Z.eqb_spec a b); [lia |]
           end.
    reflexivity. }
  repeat (split; [reflexivity |]). split; [exact Hother |].
  intros rating Hinsufficient Hscale Hsafe.
  rewrite (Hother rating Hinsufficient Hscale), (String_of_number_decimal rating Hsafe).
  reflexivity.
Qed.

Lemma getDangerLevelText_total_witness :
  getDangerLevelText 6 = "Level 6" /\ getDangerLevelText (-1) = "Level -1".
Proof.
  destruct getDangerLevelText_total as (_ & _ & _ & _ & _ & _ & _ & _ & Hother).
  split.
  - apply (Hother 6); lia.
  - apply (Hother (-1)); lia.
Defined.

(** *** The forecast normaliser *)

Section Normaliser.
Context {H : Host}.

Lemma scan_keeps_nonpositive (bands : list Altitude.t) (text : string) :
  Forall (fun a => Altitude.rating a <= 0) bands ->
  fold_left scanAltitude bands (0, text) = (0, text).
Proof.
  induction 1 as [| a bands Ha _ IH]; [reflexivity |].
  simpl. replace (Altitude.rating a >? 0) with false by lia.
  rewrite andb_false_r. exact IH.
Qed.

Lemma highestRating_nonpositive (forecast : Forecast.t) :
  Forall (fun a => Altitude.rating a <= 0) (bandsOf forecast) ->
  highestRating (Forecast.altitudeDanger forecast) = (0, "No rating available").
Proof.
  unfold bandsOf, highestRating.
  destruct (Forecast.altitudeDanger forecast) as [[| a bands] |]; try reflexivity.
  intros Hall. apply (scan_keeps_nonpositive (a :: bands)). exact Hall.
Qed.

(** The loop leaves in [maxRating] a rating that is never negative. *)
Lemma scan_nonnegative (bands : list Altitude.t) (m : Z) (text : string) :
  0 <= m -> 0 <= fst (fold_left scanAltitude bands (m, text)).
Proof.
  revert m text. induction bands as [| a bands IH]; intros m text Hm; [exact Hm |].
  simpl. destruct ((Altitude.rating a >? m) && (Altitude.rating a >? 0)) eqn:Hc.
  - apply IH. lia.
  - apply IH. exact Hm.
Qed.

(** From a start that is not negative, the loop computes the maximum. *)
Lemma scan_max (bands : list Altitude.t) (m : Z) (text : string) :
  0 <= m ->
  fst (fold_left scanAltitude bands (m, text))
  = fold_left Z.max (map Altitude.rating bands) m.
Proof.
  revert m text. induction bands as [| a bands IH]; intros m text Hm; [reflexivity |].
  simpl. destruct ((Altitude.rating a >? m) && (Altitude.rating a >? 0)) eqn:Hc.
  - rewrite IH by lia. f_equal. lia.
  - rewrite IH by exact Hm. f_equal. lia.
Qed.

(** The level is the highest rating of the bands, and 0 when none is
    above 0. *)
Lemma highestRating_max (forecast : Forecast.t) :
  fst (highestRating (Forecast.altitudeDanger forecast))
  = fold_left Z.max (map Altitude.rating (bandsOf forecast)) 0.
Proof.
  unfold bandsOf, highestRating.
  destruct (Forecast.altitudeDanger forecast) as [[| a bands] |]; try reflexivity.
  apply (scan_max (a :: bands)). lia.
Qed.

Lemma findInsufficientSnow_bands (forecast : Forecast.t) :
  findInsufficientSnow (Forecast.altitudeDanger forecast)
  = List.find (fun a => Altitude.rating a =? -2) (bandsOf forecast).
Proof.
  unfold findInsufficientSnow, bandsOf.
  destruct (Forecast.altitudeDanger forecast); reflexivity.
Qed.

(** The expiry is the creation time moved by the validity period, when
    both are times a Date can hold. *)
Lemma expiry_eq (forecast : Forecast.t) :
  expiry forecast
  = match Date_of_string (Forecast.created forecast) with
    | Some t => TimeClip (t + validHours (Forecast.validPeriod forecast) * 3600000)
    | None => None
    end.
Proof.
  unfold expiry, getTime.
  destruct (Date_of_string (Forecast.created forecast)) as [t |]; simpl; [| reflexivity].
  f_equal. lia.
Qed.

Lemma Date_of_string_range (s : string) (t : Z) :
  Date_of_string s = Some t -> - maxTime <= t <= maxTime.
Proof.
  unfold Date_of_string, Date_of_number, TimeClip.
  destruct (Date_parse s) as [t' |]; [| discriminate].
  destruct (Z.abs t' <=? maxTime) eqn:Hr; [| discriminate].
  intros [= <-]. lia.
Qed.

(** A string that [Date] reads comes back from [parseDate] as the ISO
    string of its time; the fall-back branches are for other strings. *)
Lemma parseDate_valid (s : string) (t : Z) :
  Date_of_string s = Some t -> parseDate s = isoOfTime t.
Proof.
  intros Hs. unfold parseDate. rewrite Hs. reflexivity.
Qed.

(** The sum that [new Date] is given is an integer below 2^53 in size, so
    the addition of the source, on doubles, is the addition of [Z]. *)
Lemma expiry_sum_exact (validPeriod : string) (t : Z) :
  - maxTime <= t <= maxTime ->
  Z.abs (t + validHours validPeriod * 60 * 60 * 1000) < 2 ^ 53.
Proof.
  unfold maxTime, validHours. destruct (String.eqb validPeriod "48hrs"); lia.
Qed.

Lemma validHours_cases (validPeriod : string) :
  (validPeriod = "48hrs" /\ validHours validPeriod = 48)
  \/ (validPeriod <> "48hrs" /\ validHours validPeriod = 24).
Proof.
  unfold validHours. destruct (String.eqb_spec validPeriod "48hrs"); [left | right]; auto.
Qed.

Lemma expiry_in_range (forecast : Forecast.t) (t : Z) :
  Date_of_string (Forecast.created forecast) = Some t ->
  t + validHours (Forecast.validPeriod forecast) * 3600000 <= maxTime ->
  expiry forecast = Some (t + validHours (Forecast.validPeriod forecast) * 3600000).
Proof.
  intros Hcreated Hmax. rewrite expiry_eq, Hcreated.
  pose proof (Date_of_string_range _ _ Hcreated) as Hrange.
  unfold TimeClip.
  destruct (validHours_cases (Forecast.validPeriod forecast)) as [[_ Hv] | [_ Hv]];
    rewrite Hv in *;
    match goal with
    | |- (if ?c then _ else _) = _ => replace c with true by lia
    end; reflexivity.
Qed.

Lemma normalize_valid (regionId : Z) (forecast : Forecast.t) (expires : Z) :
  expiry forecast = Some expires ->
  normalize regionId forecast = Return (normalized regionId forecast expires).
Proof.
  intros He. unfold normalize, normalized. rewrite He.
  destruct (withInsufficientSnow _ _) as [maxRating ratingDescription]. reflexivity.
Qed.

Lemma normalize_invalid (regionId : Z) (forecast : Forecast.t) :
  expiry forecast = None ->
  normalize regionId forecast = Throw RangeError.
Proof.
  intros He. unfold normalize. rewrite He.
  destruct (withInsufficientSnow _ _) as [maxRating ratingDescription]. reflexivity.
Qed.

End Normaliser.

(** *** Tag stripping and trimming *)

Lemma hasGt_closed (body rest : string) : hasGt (body +:+ ">" +:+ rest) = true.
Proof.
  induction body as [| c body IH]; simpl; [reflexivity |].
  rewrite IH. apply orb_true_r.
Qed.

Lemma insideTag_closed (body rest : string) :
  hasGt body = false -> insideTag (body +:+ ">" +:+ rest) = replaceTags rest.
Proof.
  induction body as [| c body IH]; simpl; [reflexivity |].
  intros Hbody. apply orb_false_elim in Hbody as [Hc Hbody].
  rewrite Hc. exact (IH Hbody).
Qed.

Lemma replaceTags_tag (body rest : string) :
  hasGt body = false ->
  replaceTags ("<" +:+ body +:+ ">" +:+ rest) = replaceTags rest.
Proof.
  intros Hbody.
  change (replaceTags (String "<" (body +:+ ">" +:+ rest)) = replaceTags rest).
  cbn [replaceTags]. rewrite hasGt_closed.
  unfold isLt. rewrite Ascii.eqb_refl. cbn [andb].
  exact (insideTag_closed body rest Hbody).
Qed.

Lemma isWhiteSpace_not_lt (c : ascii) : isWhiteSpace c = true -> isLt c = false.
Proof.
  destruct c as [[] [] [] [] [] [] [] []]; vm_compute; intros Hc;
    first [reflexivity | discriminate Hc].
Qed.

Lemma replaceTags_markupOnly (s : string) : markupOnly s -> blank (replaceTags s) = true.
Proof.
  induction 1 as [| c rest Hc _ IH | body rest Hbody _ IH].
  - reflexivity.
  - cbn [replaceTags]. rewrite (isWhiteSpace_not_lt c Hc). cbn [andb blank].
    rewrite Hc. exact IH.
  - rewrite (replaceTags_tag body rest Hbody). exact IH.
Qed.

Lemma trimStart_blank (s : string) : blank s = true -> trimStart s = EmptyString.
Proof.
  induction s as [| c s IH]; simpl; [reflexivity |].
  intros Hs. apply andb_prop in Hs as [Hc Hs]. rewrite Hc. exact (IH Hs).
Qed.

Lemma trim_blank (s : string) : blank s = true -> trim s = EmptyString.
Proof.
  intros Hs. unfold trim. rewrite (trimStart_blank s Hs). reflexivity.
Qed.

(** Stripping and trimming markup-only text leaves nothing. *)
Lemma strip_markupOnly (s : string) : markupOnly s -> trim (replaceTags s) = EmptyString.
Proof.
  intros Hs. apply trim_blank, replaceTags_markupOnly, Hs.
Qed.

(** *** What [getForecastData] returns *)

Section ForecastData.
Context {H : Host}.

Lemma expiry_valid_iff (forecast : Forecast.t) :
  is_Some (expiry forecast)
  <-> exists t, Date_of_string (Forecast.created forecast) = Some t
                /\ t + validHours (Forecast.validPeriod forecast) * 3600000 <= maxTime.
Proof.
  split.
  - intros [e He]. rewrite expiry_eq in He.
    destruct (Date_of_string (Forecast.created forecast)) as [t |]; [| discriminate].
    exists t. split; [reflexivity |].
    unfold TimeClip in He.
    destruct (Z.abs _ <=? maxTime) eqn:Hr; [lia | discriminate].
  - intros (t & Ht & Hmax). rewrite (expiry_in_range forecast t Ht Hmax). eauto.
Qed.

Lemma filter_nil_iff (regionId : Z) (forecasts : list Forecast.t) :
  List.filter (matching regionId) forecasts = []
  <-> Forall (fun f => Forecast.regionId f <> regionId) forecasts.
Proof.
  unfold matching. induction forecasts as [| f forecasts IH]; simpl.
  - split; [constructor | reflexivity].
  - destruct (Z.eqb_spec (Forecast.regionId f) regionId) as [Heq | Hne].
    + split; [discriminate |]. intros Hall. inversion Hall; contradiction.
    + rewrite IH. split.
      * intros Hall. constructor; assumption.
      * intros Hall. inversion Hall; assumption.
Qed.

Lemma filter_head_In (regionId : Z) (forecasts : list Forecast.t) (f : Forecast.t) :
  head (List.filter (matching regionId) forecasts) = Some f ->
  In f forecasts /\ Forecast.regionId f = regionId.
Proof.
  intros Hhead.
  assert (Hin : In f (List.filter (matching regionId) forecasts)).
  { destruct (List.filter (matching regionId) forecasts) as [| g rest]; [discriminate |].
    injection Hhead as ->. now left. }
  apply filter_In in Hin as [Hin Hm]. split; [exact Hin |].
  unfold matching in Hm. lia.
Qed.

(** With a first matching entry whose expiry is a Date, the result is the
    record built from that entry, and nothing is logged. *)
Lemma getForecastData_resolved (regionId : Z) (data : ForecastList.t)
    (f : Forecast.t) (expires : Z) :
  firstMatching regionId data = Some f ->
  expiry f = Some expires ->
  getForecastData regionId (Ok data) = (Some (normalized regionId f expires), []).
Proof.
  unfold firstMatching, getForecastData. intros Hfirst He.
  destruct (ForecastList.forecasts data) as [[| g forecasts] |]; try discriminate.
  fold (matching regionId).
  destruct (List.filter (matching regionId) (g :: forecasts)) as [| f' rest];
    [discriminate |].
  injection Hfirst as ->.
  rewrite (normalize_valid regionId f expires He). reflexivity.
Qed.

(** With a first matching entry whose expiry is not a Date, [toISOString]
    throws, the [catch] logs the error and the result is [null]. *)
Lemma getForecastData_invalid_date (regionId : Z) (data : ForecastList.t)
    (f : Forecast.t) :
  firstMatching regionId data = Some f ->
  expiry f = None ->
  getForecastData regionId (Ok data)
  = (None, [console_error ("Error fetching forecast " +:+ String_of_number regionId +:+ ":")]).
Proof.
  unfold firstMatching, getForecastData. intros Hfirst He.
  destruct (ForecastList.forecasts data) as [[| g forecasts] |]; try discriminate.
  fold (matching regionId).
  destruct (List.filter (matching regionId) (g :: forecasts)) as [| f' rest];
    [discriminate |].
  injection Hfirst as ->.
  rewrite (normalize_invalid regionId f He). reflexivity.
Qed.

(** Without a matching entry the result is [null]. *)
Lemma getForecastData_unmatched (regionId : Z) (data : ForecastList.t) :
  firstMatching regionId data = None ->
  fst (getForecastData regionId (Ok data)) = None.
Proof.
  unfold firstMatching, getForecastData. intros Hfirst.
  destruct (ForecastList.forecasts data) as [[| g forecasts] |]; try reflexivity.
  fold (matching regionId).
  destruct (List.filter (matching regionId) (g :: forecasts)) as [| f' rest];
    [reflexivity | discriminate].
Qed.

(** C3. On a well-formed payload [getForecastData] returns [null] exactly
    when the list of forecasts is empty or none of its entries has the
    region's id; when an entry has it, the result is the record normalised
    from the first such entry.  The result is a value in every case:
    whatever is thrown inside is caught. *)
Theorem getForecastData_null_iff (regionId : Z) (data : ForecastList.t)
    (forecasts : list Forecast.t) :
  wellFormed data ->
  ForecastList.forecasts data = Some forecasts ->
  (fst (getForecastData regionId (Ok data)) = None
   <-> forecasts = [] \/ Forall (fun f => Forecast.regionId f <> regionId) forecasts)
  /\ (Exists (fun f => Forecast.regionId f = regionId) forecasts ->
      exists f expires,
        firstMatching regionId data = Some f
        /\ fst (getForecastData regionId (Ok data)) = Some (normalized regionId f expires)).
Proof.
  intros (forecasts' & Hsome & Hvalid) Hforecasts.
  rewrite Hforecasts in Hsome. injection Hsome as <-.
  destruct (List.filter (matching regionId) forecasts) as [| f rest] eqn:Hfilter.
  - (* no entry matches *)
    assert (Hnone : Forall (fun f => Forecast.regionId f <> regionId) forecasts)
      by (apply filter_nil_iff; exact Hfilter).
    split.
    + split; [intros _; right; exact Hnone |].
      intros _. apply getForecastData_unmatched.
      unfold firstMatching. rewrite Hforecasts, Hfilter. reflexivity.
    + intros Hex. apply List.Exists_exists in Hex as (f & Hin & Hid).
      rewrite List.Forall_forall in Hnone. destruct (Hnone f Hin Hid).
  - (* [f] is the first entry that matches *)
    assert (Hfirst : firstMatching regionId data = Some f)
      by (unfold firstMatching; rewrite Hforecasts, Hfilter; reflexivity).
    assert (Hin : In f forecasts /\ Forecast.regionId f = regionId)
      by (apply filter_head_In; rewrite Hfilter; reflexivity).
    destruct Hin as [Hin Hid].
    rewrite List.Forall_forall in Hvalid. destruct (Hvalid f Hin) as [expires He].
    rewrite (getForecastData_resolved regionId data f expires Hfirst He). simpl.
    split.
    + split; [discriminate |].
      intros [-> | Hnone]; [destruct Hin |].
      rewrite List.Forall_forall in Hnone. destruct (Hnone f Hin Hid).
    + intros _. exists f, expires. split; [exact Hfirst | reflexivity].
Qed.

End ForecastData.

Section Normalised.
Context {H : Host}.

(** C2, as the code has it. For a forecast whose [created] parses to the
    time [t], the expiry is [t] plus exactly 48 hours when [validPeriod]
    is "48hrs" and [t] plus exactly 24 hours for every other
    [validPeriod], to the millisecond, provided that sum is no later than
    the last time a Date can hold; [expires] is then its ISO string. *)
Theorem expiry_exact (regionId : Z) (forecast : Forecast.t) (t : Z) :
  Date_of_string (Forecast.created forecast) = Some t ->
  (Forecast.validPeriod forecast = "48hrs" ->
   t + 172800000 <= maxTime ->
   expiry forecast = Some (t + 172800000)
   /\ exists result,
       normalize regionId forecast = Return result
       /\ AvalancheData.expires result = isoOfTime (t + 172800000))
  /\ (Forecast.validPeriod forecast <> "48hrs" ->
      t + 86400000 <= maxTime ->
      expiry forecast = Some (t + 86400000)
      /\ exists result,
          normalize regionId forecast = Return result
          /\ AvalancheData.expires result = isoOfTime (t + 86400000)).
Proof.
  intros Hcreated.
  destruct (validHours_cases (Forecast.validPeriod forecast)) as [[Hp Hv] | [Hp Hv]].
  - split; [| intros Hne; destruct (Hne Hp)].
    intros _ Hmax.
    assert (He : expiry forecast = Some (t + 172800000)).
    { rewrite (expiry_in_range forecast t Hcreated); rewrite Hv; [f_equal; lia | lia]. }
    split; [exact He |].
    eexists. split; [exact (normalize_valid regionId forecast _ He) | reflexivity].
  - split; [intros Heq; destruct (Hp Heq) |].
    intros _ Hmax.
    assert (He : expiry forecast = Some (t + 86400000)).
    { rewrite (expiry_in_range forecast t Hcreated); rewrite Hv; [f_equal; lia | lia]. }
    split; [exact He |].
    eexists. split; [exact (normalize_valid regionId forecast _ He) | reflexivity].
Qed.

(** Past that time there is no expiry, and no record. *)
Lemma expiry_out_of_range (regionId : Z) (forecast : Forecast.t) (t : Z) :
  Date_of_string (Forecast.created forecast) = Some t ->
  maxTime < t + validHours (Forecast.validPeriod forecast) * 3600000 ->
  expiry forecast = None /\ normalize regionId forecast = Throw RangeError.
Proof.
  intros Hcreated Hmax.
  assert (He : expiry forecast = None).
  { rewrite expiry_eq, Hcreated. unfold TimeClip.
    destruct (Z.abs _ <=? maxTime) eqn:Hr; [lia | reflexivity]. }
  split; [exact He | exact (normalize_invalid regionId forecast He)].
Qed.

(** C5. When the first matching forecast of a region has no altitude band
    rated above 0, the result has level 0 and level text "No Rating"; with
    an empty [importantInformation] its description is that of the band
    rated -2 (the first one, which [find] returns) when there is one, and
    "No rating available" when there is none. *)
Theorem insufficient_snow_description (regionId : Z) (data : ForecastList.t)
    (forecast : Forecast.t) :
  firstMatching regionId data = Some forecast ->
  is_Some (expiry forecast) ->
  Forall (fun a => Altitude.rating a <= 0) (bandsOf forecast) ->
  exists result,
    fst (getForecastData regionId (Ok data)) = Some result
    /\ AvalancheData.level result = 0
    /\ AvalancheData.levelText result = "No Rating"
    /\ (Forecast.importantInformation forecast = EmptyString ->
        match List.find (fun a => Altitude.rating a =? -2) (bandsOf forecast) with
        | Some insufficientSnow =>
            AvalancheData.description result = Altitude.description insufficientSnow
        | None => AvalancheData.description result = "No rating available"
        end).
Proof.
  intros Hfirst [expires He] Hbands.
  exists (normalized regionId forecast expires).
  rewrite (getForecastData_resolved regionId data forecast expires Hfirst He).
  unfold normalized.
  rewrite (highestRating_nonpositive forecast Hbands).
  unfold withInsufficientSnow. cbn [Z.eqb].
  rewrite findInsufficientSnow_bands.
  destruct (List.find _ (bandsOf forecast)) as [insufficientSnow |];
    (split; [reflexivity |]); cbn [fst snd AvalancheData.level AvalancheData.levelText
                                     AvalancheData.description];
    (split; [reflexivity |]); (split; [reflexivity |]);
    intros ->; reflexivity.
Qed.

(** C10. When [importantInformation] is not empty and holds only markup
    tags and white space, the description of the result is the empty
    string: the text is tested before it is stripped and trimmed, and the
    description of the altitude bands is not used. *)
Theorem markup_only_description (regionId : Z) (data : ForecastList.t)
    (forecast : Forecast.t) :
  firstMatching regionId data = Some forecast ->
  is_Some (expiry forecast) ->
  Forecast.importantInformation forecast <> EmptyString ->
  markupOnly (Forecast.importantInformation forecast) ->
  exists result,
    fst (getForecastData regionId (Ok data)) = Some result
    /\ AvalancheData.description result = EmptyString.
Proof.
  intros Hfirst [expires He] Hfilled Hmarkup.
  exists (normalized regionId forecast expires).
  rewrite (getForecastData_resolved regionId data forecast expires Hfirst He).
  split; [reflexivity |].
  unfold normalized, describe. cbn [AvalancheData.description].
  destruct (Forecast.importantInformation forecast) as [| c rest] eqn:Hinfo;
    [destruct (Hfilled eq_refl) |].
  cbn [truthy_string]. exact (strip_markupOnly _ Hmarkup).
Qed.

End Normalised.

(** *** Region geometry *)

Lemma bind_Return {A B} (c : completion A) (k : A -> completion B) (b : B) :
  bind c k = Return b -> exists a, c = Return a /\ k a = Return b.
Proof.
  destruct c as [a | e]; simpl; [| discriminate]. intros Hk. exists a. auto.
Qed.

Section Geometry.
Context {H : Host}.

Lemma strictEqString_true (v : value) (s : string) :
  strictEqString v s = true -> v = Some (JString s).
Proof.
  destruct v as [[| | | s' | |] |]; simpl; try discriminate.
  intros Heq. apply String.eqb_eq in Heq. now subst.
Qed.

(** What the [try] leaves in [polygonCoordinates] is [null] or truthy. *)
Lemma readPolygon_truthy (geometry : string) (v : value) :
  readPolygon geometry = Return v -> v = None \/ truthy v = true.
Proof.
  unfold readPolygon. destruct (JSON_parse geometry) as [document |]; [| discriminate].
  repeat match goal with
         | |- bind ?c _ = _ -> _ => destruct c; simpl; [| discriminate]
         | |- (if ?b then _ else _) = _ -> _ => destruct b eqn:?
         end; intros [= <-]; auto.
Qed.

Lemma readPolygon_unusable (geometry : string) :
  unusable geometry ->
  readPolygon geometry = Return None \/ exists e, readPolygon geometry = Throw e.
Proof.
  intros Hu. unfold readPolygon.
  destruct Hu as [Hparse | Hparse | document Hparse Hlayers
                 | document geom type Hparse Hgeom Htype Hother
                 | document geom Hparse Hgeom Hcoordinates
                 | Hparse | document Hparse Hlayers]; rewrite Hparse.
  - right. eauto.
  - right. eexists. reflexivity.
  - left. rewrite Hlayers. reflexivity.
  - left. unfold firstLayerGeometry in Hgeom.
    apply bind_Return in Hgeom as (layers & Hlayers & Hgeom).
    apply bind_Return in Hgeom as (first & Hfirst & Hgeom).
    rewrite Hlayers. cbn [bind].
    destruct (truthy layers); [| reflexivity].
    rewrite Hfirst. cbn [bind].
    destruct (truthy first); [| reflexivity].
    rewrite Hgeom. cbn [bind].
    destruct (truthy geom); [| reflexivity].
    rewrite Htype. cbn [bind].
    destruct (strictEqString type "Polygon") eqn:Heq; [| reflexivity].
    destruct (Hother (strictEqString_true _ _ Heq)).
  - left. unfold firstLayerGeometry in Hgeom.
    apply bind_Return in Hgeom as (layers & Hlayers & Hgeom).
    apply bind_Return in Hgeom as (first & Hfirst & Hgeom).
    rewrite Hlayers. cbn [bind].
    destruct (truthy layers); [| reflexivity].
    rewrite Hfirst. cbn [bind].
    destruct (truthy first); [| reflexivity].
    rewrite Hgeom. cbn [bind].
    destruct (truthy geom); [| reflexivity].
    destruct (get geom "type") as [type |] eqn:Htype; cbn [bind].
    + rewrite Hcoordinates. cbn [bind truthy].
      destruct (strictEqString type "Polygon"); reflexivity.
    + destruct geom as [[] |]; discriminate.
  - left. reflexivity.
  - left. rewrite Hlayers. reflexivity.
Qed.

(** No geometry comes out of an unusable string, and nothing is thrown
    past [parseGeometry]. *)
Lemma parseGeometry_unusable (regionId : Z) (geometry : string) :
  unusable geometry -> fst (parseGeometry regionId geometry) = None.
Proof.
  intros Hu. unfold parseGeometry.
  destruct (readPolygon_unusable geometry Hu) as [-> | [e ->]]; reflexivity.
Qed.

Lemma parseGeometry_truthy (regionId : Z) (geometry : string) (coordinates : json) :
  fst (parseGeometry regionId geometry) = Some coordinates ->
  truthy (Some coordinates) = true.
Proof.
  unfold parseGeometry.
  destruct (readPolygon geometry) as [v |] eqn:Hread; simpl; [| discriminate].
  intros ->. destruct (readPolygon_truthy geometry _ Hread); [discriminate | assumption].
Qed.

End Geometry.

(** *** The features of a run *)

Lemma seq_fst {A B} (c : IO A) (k : A -> IO B) : fst (seq c k) = fst (k (fst c)).
Proof. unfold seq. destruct c as [a t1]. simpl. destruct (k a). reflexivity. Qed.

Lemma seq_snd {A B} (c : IO A) (k : A -> IO B) :
  snd (seq c k) = snd c ++ snd (k (fst c)).
Proof. unfold seq. destruct c as [a t1]. simpl. destruct (k a). reflexivity. Qed.

Lemma submissions_app (t1 t2 : list event) :
  submissions (t1 ++ t2) = submissions t1 ++ submissions t2.
Proof.
  induction t1 as [| e t1 IH]; [reflexivity |].
  destruct e; simpl; rewrite IH; reflexivity.
Qed.

Section Run.
Context {H : Host}.
Variable w : Surroundings.

Lemma getRegionInfo_Ok (regionId : Z) (body : RegionInfo.t) :
  getRegionInfo regionId (Ok body) = (Some body, []).
Proof. destruct body. reflexivity. Qed.

Lemma regionInfoOf_Some (regionId : Z) (regionInfo : RegionInfo.t) :
  regionInfoOf w regionId = Some regionInfo <-> regionResponse w regionId = Ok regionInfo.
Proof.
  unfold regionInfoOf. destruct (regionResponse w regionId) as [| status | body].
  - split; discriminate.
  - split; discriminate.
  - rewrite getRegionInfo_Ok. simpl. split; intros [= ->]; reflexivity.
Qed.

Lemma visit_features (features : list Feature.t) (regionId : Z) :
  fst (visit w features regionId) = features ++ contribution w regionId.
Proof.
  unfold visit, contribution, dataOf, regionInfoOf.
  rewrite !seq_fst.
  destruct (fst (getForecastData regionId (forecastResponse w regionId))) as [data |];
    destruct (fst (getRegionInfo regionId (regionResponse w regionId))) as [regionInfo |];
    rewrite ?seq_fst; simpl; rewrite ?app_nil_r; reflexivity.
Qed.

Lemma visitAll_features (regions : list Z) (features : list Feature.t) :
  fst (visitAll w features regions) = features ++ flat_map (contribution w) regions.
Proof.
  revert features. induction regions as [| regionId rest IH]; intros features; simpl.
  - rewrite app_nil_r. reflexivity.
  - rewrite seq_fst, IH, visit_features, app_assoc. reflexivity.
Qed.

(** Nothing is submitted inside the loop. *)
Lemma getRegionInfo_quiet (regionId : Z) (response : fetched RegionInfo.t) :
  submissions (snd (getRegionInfo regionId response)) = [].
Proof. destruct response; reflexivity. Qed.

Lemma getForecastData_quiet (regionId : Z) (response : fetched ForecastList.t) :
  submissions (snd (getForecastData regionId response)) = [].
Proof.
  unfold getForecastData. destruct response as [| status | data]; try reflexivity.
  destruct (ForecastList.forecasts data) as [[| f forecasts] |]; try reflexivity.
  destruct (List.filter _ _) as [| forecast rest]; [reflexivity |].
  destruct (normalize regionId forecast); reflexivity.
Qed.

Lemma parseGeometry_quiet (regionId : Z) (geometry : string) :
  submissions (snd (parseGeometry regionId geometry)) = [].
Proof. unfold parseGeometry. destruct (readPolygon geometry); reflexivity. Qed.

Lemma visit_quiet (features : list Feature.t) (regionId : Z) :
  submissions (snd (visit w features regionId)) = [].
Proof.
  unfold visit. rewrite !seq_snd, !submissions_app.
  rewrite getRegionInfo_quiet, getForecastData_quiet.
  destruct (fst (getForecastData regionId (forecastResponse w regionId))) as [data |];
    destruct (fst (getRegionInfo regionId (regionResponse w regionId))) as [regionInfo |];
    rewrite ?seq_snd, ?submissions_app, ?parseGeometry_quiet; reflexivity.
Qed.

Lemma visitAll_quiet (regions : list Z) (features : list Feature.t) :
  submissions (snd (visitAll w features regions)) = [].
Proof.
  revert features. induction regions as [| regionId rest IH]; intros features; simpl.
  - reflexivity.
  - rewrite seq_snd, submissions_app, visit_quiet, IH. reflexivity.
Qed.

Lemma control_submissions (timeout : Z) :
  env_Timeout w = Return timeout ->
  submissions (snd (control w)) = [collected w].
Proof.
  intros Henv. unfold control. rewrite Henv.
  rewrite !seq_snd, !submissions_app, visitAll_quiet.
  rewrite visitAll_features. simpl.
  destruct (submitted w); reflexivity.
Qed.

End Run.

Section Features.
Context {H : Host}.
Variable w : Surroundings.

(** C4. When the geometry string of a region is not JSON, or is [null], or
    its document lacks [layers], or the type of [layers[0].geometry] is not
    exactly "Polygon", or that geometry lacks [coordinates], or the
    document or its [layers] is an empty array, no geometry is extracted
    and nothing is thrown, and the region, its info and forecast being
    there, adds its Point feature and nothing else: one feature, with the
    id [avalanche-<regionId>-center] and a Point geometry at the latitude
    and longitude of the region. *)
Theorem unusable_geometry_point_only (regionId : Z) (regionInfo : RegionInfo.t)
    (data : AvalancheData.t) :
  regionInfoOf w regionId = Some regionInfo ->
  dataOf w regionId = Some data ->
  unusable (RegionInfo.geometry regionInfo) ->
  fst (parseGeometry regionId (RegionInfo.geometry regionInfo)) = None
  /\ contribution w regionId
     = [pointFeature regionId (baseProperties regionId regionInfo data) regionInfo data]
  /\ (forall features,
        fst (visit w features regionId)
        = features
            ++ [pointFeature regionId (baseProperties regionId regionInfo data) regionInfo data])
  /\ exists point,
      contribution w regionId = [point]
      /\ Feature.id point = "avalanche-" +:+ String_of_number regionId +:+ "-center"
      /\ Feature.type point = "Feature"
      /\ Feature.geometry point
         = Geometry.Point [RegionInfo.latitude regionInfo; RegionInfo.longitude regionInfo]
      /\ exists icon,
          Properties.own (Feature.properties point) = Properties.OfPoint (Some icon)
          /\ (AVALANCHE_ICONS !! AvalancheData.level data = Some icon
              \/ (AVALANCHE_ICONS !! AvalancheData.level data = None
                  /\ AVALANCHE_ICONS !! 0 = Some icon)).
Proof.
  intros Hinfo Hdata Hu.
  pose proof (parseGeometry_unusable regionId _ Hu) as Hnone.
  assert (Hc : contribution w regionId
               = [pointFeature regionId (baseProperties regionId regionInfo data)
                    regionInfo data]).
  { unfold contribution. rewrite Hinfo, Hdata, Hnone. reflexivity. }
  split; [exact Hnone |]. split; [exact Hc |]. split.
  - intros features. rewrite visit_features, Hc. reflexivity.
  - eexists. split; [exact Hc |].
    cbn [pointFeature Feature.id Feature.type Feature.geometry Feature.properties
           Properties.own].
    split; [reflexivity |]. split; [reflexivity |]. split; [reflexivity |].
    unfold lookupOrZero. destruct (tabled (AvalancheData.level data)) eqn:Hl.
    + destruct (icons_tabled _ Hl) as (icon & Hicon & Htruthy).
      exists icon. rewrite Hicon. cbn [orElse]. rewrite Htruthy. auto.
    + rewrite (icons_untabled _ Hl). cbn [orElse].
      destruct (icons_tabled 0 eq_refl) as (icon & Hicon & _).
      exists icon. rewrite Hicon. auto.
Qed.

(** C6. A region whose info and forecast are both there adds exactly one
    Point feature, with id [avalanche-<regionId>-center], preceded by
    exactly one Polygon feature, with id [avalanche-<regionId>], when
    polygon coordinates were extracted, and by nothing when none were. *)
Theorem region_features (regionId : Z) (regionInfo : RegionInfo.t)
    (data : AvalancheData.t) :
  regionInfoOf w regionId = Some regionInfo ->
  dataOf w regionId = Some data ->
  exists point,
    Feature.id point = "avalanche-" +:+ String_of_number regionId +:+ "-center"
    /\ isPoint point = true
    /\ match fst (parseGeometry regionId (RegionInfo.geometry regionInfo)) with
       | Some coordinates =>
           exists polygon,
             Feature.id polygon = "avalanche-" +:+ String_of_number regionId
             /\ Feature.geometry polygon = Geometry.Polygon coordinates
             /\ contribution w regionId = [polygon; point]
             /\ forall features,
                 fst (visit w features regionId) = features ++ [polygon; point]
       | None =>
           contribution w regionId = [point]
           /\ forall features, fst (visit w features regionId) = features ++ [point]
       end.
Proof.
  intros Hinfo Hdata.
  exists (pointFeature regionId (baseProperties regionId regionInfo data) regionInfo data).
  split; [reflexivity |]. split; [reflexivity |].
  destruct (fst (parseGeometry regionId (RegionInfo.geometry regionInfo)))
    as [coordinates |] eqn:Hgeometry.
  - pose proof (parseGeometry_truthy regionId _ _ Hgeometry) as Htruthy.
    eexists. split; [| split; [| split]].
    3: { unfold contribution. rewrite Hinfo, Hdata, Hgeometry.
         unfold pushed. rewrite Htruthy. reflexivity. }
    + reflexivity.
    + reflexivity.
    + intros features. rewrite visit_features.
      unfold contribution. rewrite Hinfo, Hdata, Hgeometry.
      unfold pushed. rewrite Htruthy. reflexivity.
  - assert (Hc : contribution w regionId
                 = [pointFeature regionId (baseProperties regionId regionInfo data)
                      regionInfo data]).
    { unfold contribution. rewrite Hinfo, Hdata, Hgeometry. reflexivity. }
    split; [exact Hc |].
    intros features. rewrite visit_features, Hc. reflexivity.
Qed.

(** C7. The coordinates of every Point feature of the collection are the
    latitude and the longitude, in this order, that the region endpoint
    answered for one of the regions. *)
Theorem point_coordinates (feature : Feature.t) (coordinates : list Q) :
  In feature (FeatureCollection.features (collected w)) ->
  Feature.geometry feature = Geometry.Point coordinates ->
  exists regionId body,
    In regionId VALID_REGIONS
    /\ regionResponse w regionId = Ok body
    /\ Feature.id feature = "avalanche-" +:+ String_of_number regionId +:+ "-center"
    /\ coordinates = [RegionInfo.latitude body; RegionInfo.longitude body].
Proof.
  cbn [collected FeatureCollection.features]. intros Hin Hpoint.
  apply in_flat_map in Hin as (regionId & Hregion & Hin).
  exists regionId. unfold contribution in Hin.
  destruct (dataOf w regionId) as [data |]; [| destruct Hin].
  destruct (regionInfoOf w regionId) as [regionInfo |] eqn:Hinfo; [| destruct Hin].
  exists regionInfo. apply regionInfoOf_Some in Hinfo.
  unfold pushed in Hin. apply in_app_or in Hin as [Hin | [<- | []]].
  - destruct (fst (parseGeometry _ _)) as [c |]; [| destruct Hin].
    destruct (truthy (Some c)); [| destruct Hin].
    destruct Hin as [<- | []]. discriminate Hpoint.
  - cbn [pointFeature Feature.geometry Feature.id] in *.
    injection Hpoint as <-. auto.
Qed.

(** C9. A region without its info or without its forecast adds no feature
    and the loop goes on with the regions behind it; once the loop over the
    catalog is through, the collection is submitted exactly once, also
    when it holds no feature, as it does when the list of forecasts is
    empty for every region. *)
Theorem run_submits_once (timeout : Z) :
  env_Timeout w = Return timeout ->
  submissions (snd (control w)) = [collected w]
  /\ (forall regionId,
         regionInfoOf w regionId = None \/ dataOf w regionId = None ->
         contribution w regionId = []
         /\ forall features rest,
             fst (visitAll w features (regionId :: rest))
             = fst (visitAll w features rest))
  /\ ((forall regionId,
          exists data, forecastResponse w regionId = Ok data
                       /\ ForecastList.forecasts data = Some []) ->
      FeatureCollection.features (collected w) = []).
Proof.
  intros Henv. split; [exact (control_submissions w timeout Henv) |].
  assert (Hmissing : forall regionId,
             regionInfoOf w regionId = None \/ dataOf w regionId = None ->
             contribution w regionId = []).
  { intros regionId Hnone. unfold contribution.
    destruct Hnone as [-> | ->]; [destruct (dataOf w regionId) |]; reflexivity. }
  split.
  - intros regionId Hnone. split; [exact (Hmissing regionId Hnone) |].
    intros features rest. rewrite !visitAll_features. simpl.
    rewrite (Hmissing regionId Hnone). reflexivity.
  - intros Hempty. cbn [collected FeatureCollection.features].
    induction VALID_REGIONS as [| regionId rest IH]; [reflexivity |].
    simpl. rewrite IH, app_nil_r. apply Hmissing. right.
    unfold dataOf. destruct (Hempty regionId) as (data & -> & Hforecasts).
    unfold getForecastData. rewrite Hforecasts. reflexivity.
Qed.

End Features.

Section OnReference.
Import Reference Sample.
#[local] Existing Instance reference.

(** Scenario 1 of the specification. *)
Example considerable_normalised :
  getForecastData 1 (Ok payload)
  = (Some {| AvalancheData.location := "Region 1";
             AvalancheData.level := 3;
             AvalancheData.levelText := "Considerable (3)";
             AvalancheData.description := "Considerable";
             AvalancheData.start := "2025-01-01T00:00:00Z";
             AvalancheData.expires := "2025-01-02T00:00:00.000Z";
             AvalancheData.url := "https://www.avalanche.net.nz/region/1" |}, []).
Proof. vm_compute. reflexivity. Qed.

Example considerable_stale :
  map (fun f => Properties.stale (Properties.shared (Feature.properties f)))
      (contribution surroundings 1)
  = [Some "2025-01-02T00:00:00.000Z"; Some "2025-01-02T00:00:00.000Z"].
Proof. vm_compute. reflexivity. Qed.

(** The ids of the features of the sample run, in order. *)
Example surroundings_ids :
  map Feature.id (FeatureCollection.features (collected surroundings))
  = ["avalanche-1"; "avalanche-1-center"; "avalanche-2-center"; "avalanche-4-center"].
Proof. vm_compute. reflexivity. Qed.

(** The reference [Date.parse] reads back what [toISOString] writes, at
    the ends of the range too. *)
Example iso_round_trip :
  map (fun t => isoParse (isoOfTime t))
      [0; -1; 1735713000250; 8640000000000000; -8640000000000000; -62167219200001]
  = map Some
      [0; -1; 1735713000250; 8640000000000000; -8640000000000000; -62167219200001].
Proof. vm_compute. reflexivity. Qed.

Example iso_last_instant : isoOfTime 8640000000000000 = "+275760-09-13T00:00:00.000Z".
Proof. vm_compute. reflexivity. Qed.

(** The fall-back of [parseDate] on a date in the NZ format. *)
Example parseDate_nz :
  parseDate "Monday 1st September 2025, 15:18" = "2025-09-01T15:18:00.000Z".
Proof. vm_compute. reflexivity. Qed.

(** A forecast whose [created] does not parse gives no record. *)
Example unparsed_created :
  getForecastData 1
    (Ok {| ForecastList.forecasts :=
             Some [{| Forecast.regionId := 1;
                      Forecast.altitudeDanger := Some [band 3 "Considerable"];
                      Forecast.created := "yesterday";
                      Forecast.validPeriod := "24hrs";
                      Forecast.importantInformation := EmptyString |}] |})
  = (None, [console_error "Error fetching forecast 1:"]).
Proof. vm_compute. reflexivity. Qed.

(** A forecast created at the last instant of the Date range parses, but
    its expiry lies past the range: there is no expiry and no record. *)
Example lastInstant_expiry :
  Date_of_string (Forecast.created lastInstant) = Some 8640000000000000
  /\ expiry lastInstant = None
  /\ getForecastData 1 (Ok {| ForecastList.forecasts := Some [lastInstant] |})
     = (None, [console_error "Error fetching forecast 1:"]).
Proof. vm_compute. repeat split; reflexivity. Qed.

(** The geometry strings of C4, one of each kind. *)
Example unusable_not_json : unusable "not json".
Proof. apply invalid_json. reflexivity. Qed.

Example unusable_null : unusable "null".
Proof. apply null_document. reflexivity. Qed.

Example unusable_no_layers : unusable (text "{'type':'Polygon'}").
Proof. eapply lacks_layers; reflexivity. Qed.

Example unusable_point :
  unusable (text "{'layers':[{'geometry':{'type':'Point','coordinates':[170.5,-43.5]}}]}").
Proof. eapply other_type; [reflexivity | reflexivity | reflexivity | discriminate]. Qed.

Example unusable_lower_case :
  unusable (text "{'layers':[{'geometry':{'type':'polygon','coordinates':[[[1,2]]]}}]}").
Proof. eapply other_type; [reflexivity | reflexivity | reflexivity | discriminate]. Qed.

Example unusable_no_coordinates :
  unusable (text "{'layers':[{'geometry':{'type':'Polygon'}}]}").
Proof. eapply lacks_coordinates; reflexivity. Qed.

Example unusable_empty_array : unusable "[]".
Proof. apply empty_array. reflexivity. Qed.

Example unusable_empty_layers : unusable (text "{'layers':[]}").
Proof. eapply empty_layers; reflexivity. Qed.

(** Coordinates that are an empty array are coordinates all the same. *)
Example empty_coordinates_extracted :
  fst (parseGeometry 1 (text "{'layers':[{'geometry':{'type':'Polygon','coordinates':[]}}]}"))
  = Some (JArray []).
Proof. vm_compute. reflexivity. Qed.

End OnReference.

Section Witnesses.
Import Reference Sample.
#[local] Existing Instance reference.

(** C2 as it is stated fails: a [created] that parses, with an expiry that
    is not [created] plus 24 hours. *)
Lemma expiry_past_last_instant :
  ~ (forall (H : Host) (forecast : Forecast.t) (t : Z),
        Date_of_string (Forecast.created forecast) = Some t ->
        (Forecast.validPeriod forecast = "48hrs" ->
         expiry forecast = Some (t + 172800000))
        /\ (Forecast.validPeriod forecast <> "48hrs" ->
            expiry forecast = Some (t + 86400000))).
Proof.
  intros Hclaim.
  assert (Hparsed : Date_of_string (Forecast.created lastInstant) = Some 8640000000000000)
    by (vm_compute; reflexivity).
  destruct (Hclaim reference lastInstant 8640000000000000 Hparsed) as [_ Hday].
  assert (Hperiod : Forecast.validPeriod lastInstant <> "48hrs") by discriminate.
  specialize (Hday Hperiod). vm_compute in Hday. discriminate Hday.
Qed.

Lemma expiry_exact_witness :
  expiry considerable = Some (1735689600000 + 86400000)
  /\ expiry insufficient = Some (1735713000250 + 172800000).
Proof.
  assert (Hfirst : Date_of_string (Forecast.created considerable) = Some 1735689600000)
    by (vm_compute; reflexivity).
  assert (Hsecond : Date_of_string (Forecast.created insufficient) = Some 1735713000250)
    by (vm_compute; reflexivity).
  split.
  - destruct (expiry_exact 1 considerable 1735689600000 Hfirst) as [_ Hday].
    destruct Hday as [He _]; [discriminate | unfold maxTime; lia | exact He].
  - destruct (expiry_exact 2 insufficient 1735713000250 Hsecond) as [Hdays _].
    destruct Hdays as [He _]; [reflexivity | unfold maxTime; lia | exact He].
Defined.

Lemma payload_wellFormed : wellFormed payload.
Proof.
  exists [considerable; insufficient; hollow; older].
  split; [reflexivity |].
  repeat constructor; eexists; vm_compute; reflexivity.
Defined.

Lemma getForecastData_null_iff_witness :
  (fst (getForecastData 5 (Ok payload)) = None
   <-> [considerable; insufficient; hollow; older] = []
       \/ Forall (fun f => Forecast.regionId f <> 5)
            [considerable; insufficient; hollow; older])
  /\ (Exists (fun f => Forecast.regionId f = 1) [considerable; insufficient; hollow; older] ->
      exists f expires,
        firstMatching 1 payload = Some f
        /\ fst (getForecastData 1 (Ok payload)) = Some (normalized 1 f expires)).
Proof.
  split.
  - exact (proj1 (getForecastData_null_iff 5 payload _ payload_wellFormed eq_refl)).
  - exact (proj2 (getForecastData_null_iff 1 payload _ payload_wellFormed eq_refl)).
Defined.

Lemma unusable_geometry_point_only_witness :
  fst (parseGeometry 2 "not json") = None
  /\ contribution surroundings 2
     = [pointFeature 2 (baseProperties 2 (region 2 "Taranaki" "not json") insufficientData)
          (region 2 "Taranaki" "not json") insufficientData]
  /\ exists point,
      contribution surroundings 2 = [point]
      /\ Feature.id point = "avalanche-2-center"
      /\ Feature.geometry point = Geometry.Point [(-43.5)%Q; 170.5%Q].
Proof.
  destruct (unusable_geometry_point_only surroundings 2
              (region 2 "Taranaki" "not json") insufficientData)
    as (Hnone & Hpoint & _ & point & Hone & Hid & _ & Hgeometry & _).
  - reflexivity.
  - vm_compute. reflexivity.
  - apply invalid_json. reflexivity.
  - split; [exact Hnone |]. split; [exact Hpoint |].
    exists point. split; [exact Hone |]. split; [exact Hid | exact Hgeometry].
Defined.

Lemma insufficient_snow_description_witness :
  exists result,
    fst (getForecastData 2 (Ok payload)) = Some result
    /\ AvalancheData.level result = 0
    /\ AvalancheData.levelText result = "No Rating"
    /\ AvalancheData.description result = "Insufficient Snow data".
Proof.
  destruct (insufficient_snow_description 2 payload insufficient)
    as (result & Hresult & Hlevel & Htext & Hdescription).
  - reflexivity.
  - eexists. vm_compute. reflexivity.
  - repeat constructor; simpl; lia.
  - exists result. repeat split; try assumption.
    exact (Hdescription eq_refl).
Defined.

Lemma region_features_witness :
  exists polygon point,
    contribution surroundings 1 = [polygon; point]
    /\ Feature.id polygon = "avalanche-1"
    /\ Feature.id point = "avalanche-1-center".
Proof.
  destruct (region_features surroundings 1 (region 1 "Tongariro" polygonText)
              considerableData)
    as (point & Hid & _ & Hpolygon).
  - reflexivity.
  - vm_compute. reflexivity.
  - change (fst (parseGeometry 1 (RegionInfo.geometry (region 1 "Tongariro" polygonText))))
      with (Some (JArray [JArray [JArray [JNumber 170.5; JNumber (-43.5)];
                                  JArray [JNumber 171; JNumber (-44)];
                                  JArray [JNumber 170.5; JNumber (-43.5)]]]))
      in Hpolygon.
    destruct Hpolygon as (polygon & Hpid & _ & Hboth & _).
    exists polygon, point. repeat split; assumption.
Defined.

Lemma point_coordinates_witness :
  exists regionId body,
    In regionId VALID_REGIONS
    /\ regionResponse surroundings regionId = Ok body
    /\ "avalanche-2-center" = "avalanche-" +:+ String_of_number regionId +:+ "-center"
    /\ [(-43.5)%Q; 170.5%Q] = [RegionInfo.latitude body; RegionInfo.longitude body].
Proof.
  apply (point_coordinates surroundings
           (pointFeature 2 (baseProperties 2 (region 2 "Taranaki" "not json") insufficientData)
              (region 2 "Taranaki" "not json") insufficientData)).
  - vm_compute. right. right. left. reflexivity.
  - reflexivity.
Defined.

Lemma run_submits_once_witness :
  submissions (snd (control noForecasts))
  = [{| FeatureCollection.type := "FeatureCollection";
        FeatureCollection.features := [] |}].
Proof.
  destruct (run_submits_once noForecasts 30000 eq_refl) as (Honce & _ & _).
  rewrite Honce. reflexivity.
Defined.

Lemma hollow_markupOnly : markupOnly (Forecast.importantInformation hollow).
Proof.
  apply (markup_tag "p" " <br/></p> "); [reflexivity |].
  apply markup_space; [reflexivity |].
  apply (markup_tag "br/" "</p> "); [reflexivity |].
  apply (markup_tag "/p" " "); [reflexivity |].
  apply markup_space; [reflexivity |].
  apply markup_end.
Defined.

Lemma markup_only_description_witness :
  exists result,
    fst (getForecastData 4 (Ok payload)) = Some result
    /\ AvalancheData.description result = EmptyString.
Proof.
  apply (markup_only_description 4 payload hollow).
  - reflexivity.
  - eexists. vm_compute. reflexivity.
  - discriminate.
  - exact hollow_markupOnly.
Defined.

End Witnesses.

(** ** Further properties *)

(** *** [getForecastData] *)

Section ForecastResults.
Context {H : Host}.

Lemma getForecastData_Some_inv (regionId : Z) (response : fetched ForecastList.t)
    (result : AvalancheData.t) :
  fst (getForecastData regionId response) = Some result ->
  exists data forecast expires,
    response = Ok data
    /\ firstMatching regionId data = Some forecast
    /\ expiry forecast = Some expires
    /\ result = normalized regionId forecast expires.
Proof.
  destruct response as [| status | data]; try discriminate.
  intros Hresult. exists data.
  destruct (firstMatching regionId data) as [forecast |] eqn:Hfirst.
  - destruct (expiry forecast) as [expires |] eqn:He.
    + rewrite (getForecastData_resolved regionId data forecast expires Hfirst He) in Hresult.
      injection Hresult as <-. exists forecast, expires. auto.
    + rewrite (getForecastData_invalid_date regionId data forecast Hfirst He) in Hresult.
      discriminate.
  - rewrite (getForecastData_unmatched regionId data Hfirst) in Hresult. discriminate.
Qed.

(** X1. [getForecastData] gives a record exactly when the response is a
    body whose list has an entry of the region and the first such entry has
    an expiry that is a Date; the record is the one normalised from that
    entry. *)
Theorem getForecastData_Some_iff (regionId : Z) (response : fetched ForecastList.t)
    (result : AvalancheData.t) :
  fst (getForecastData regionId response) = Some result
  <-> exists data forecast expires,
        response = Ok data
        /\ firstMatching regionId data = Some forecast
        /\ expiry forecast = Some expires
        /\ result = normalized regionId forecast expires.
Proof.
  split; [apply getForecastData_Some_inv |].
  intros (data & forecast & expires & -> & Hfirst & He & ->).
  rewrite (getForecastData_resolved regionId data forecast expires Hfirst He). reflexivity.
Qed.

Lemma filter_first (regionId : Z) (others rest : list Forecast.t) (forecast : Forecast.t) :
  Forall (fun f => Forecast.regionId f <> regionId) others ->
  Forecast.regionId forecast = regionId ->
  List.filter (matching regionId) (others ++ forecast :: rest)
  = forecast :: List.filter (matching regionId) rest.
Proof.
  intros Hothers Hid. rewrite List.filter_app.
  rewrite (proj2 (filter_nil_iff regionId others) Hothers). simpl.
  unfold matching at 1. rewrite Hid, Z.eqb_refl. reflexivity.
Qed.

(** X2. Only the first entry of the region counts: the entries of other
    regions before it and every entry behind it, of whatever region and
    date, change neither the result nor what is logged. *)
Theorem getForecastData_first_only (regionId : Z) (others rest : list Forecast.t)
    (forecast : Forecast.t) :
  Forall (fun f => Forecast.regionId f <> regionId) others ->
  Forecast.regionId forecast = regionId ->
  getForecastData regionId
    (Ok {| ForecastList.forecasts := Some (others ++ forecast :: rest) |})
  = getForecastData regionId (Ok {| ForecastList.forecasts := Some [forecast] |}).
Proof.
  intros Hothers Hid.
  pose proof (filter_first regionId others rest forecast Hothers Hid) as Hmany.
  pose proof (filter_first regionId [] [] forecast (List.Forall_nil _) Hid) as Hone.
  unfold getForecastData. cbn [ForecastList.forecasts].
  fold (matching regionId).
  destruct others as [| other others]; cbn [app] in *; rewrite Hmany, Hone; reflexivity.
Qed.

(** X6. A record comes with no console message, and [null] with exactly
    one, a warning or an error. *)
Theorem getForecastData_one_message (regionId : Z) (response : fetched ForecastList.t) :
  match fst (getForecastData regionId response) with
  | Some _ => snd (getForecastData regionId response) = []
  | None =>
      exists message,
        snd (getForecastData regionId response) = [console_warn message]
        \/ snd (getForecastData regionId response) = [console_error message]
  end.
Proof.
  unfold getForecastData. destruct response as [| status | data]; [simpl; eauto .. |].
  destruct (ForecastList.forecasts data) as [[| f forecasts] |];
    [simpl; eauto | | simpl; eauto].
  cbv beta match. fold (matching regionId).
  destruct (List.filter (matching regionId) (f :: forecasts)) as [| forecast rest];
    [simpl; eauto |].
  destruct (normalize regionId forecast); simpl; eauto.
Qed.

End ForecastResults.

(** *** The level and its description *)

Section Levels.
Context {H : Host}.

Lemma highestRating_fold (forecast : Forecast.t) :
  highestRating (Forecast.altitudeDanger forecast)
  = fold_left scanAltitude (bandsOf forecast) (0, "No rating available").
Proof.
  unfold highestRating, bandsOf.
  destruct (Forecast.altitudeDanger forecast) as [[| a bands] |]; reflexivity.
Qed.

(** What the loop over the bands leaves: the start, when no band is rated
    above it, and otherwise the rating and description of the first band
    with the highest rating. *)
Lemma scan_first_highest (bands : list Altitude.t) (m : Z) (text : string) :
  0 <= m ->
  (fold_left scanAltitude bands (m, text) = (m, text)
   /\ Forall (fun b => Altitude.rating b <= m) bands)
  \/ (exists before a behind,
         bands = before ++ a :: behind
         /\ fold_left scanAltitude bands (m, text)
            = (Altitude.rating a, Altitude.description a)
         /\ m < Altitude.rating a
         /\ Forall (fun b => Altitude.rating b < Altitude.rating a) before
         /\ Forall (fun b => Altitude.rating b <= Altitude.rating a) behind).
Proof.
  intros Hm. induction bands as [| x bands IH] using rev_ind.
  - left. split; [reflexivity | constructor].
  - rewrite fold_left_app. cbn [fold_left].
    destruct IH as [[-> Hall] | (before & a & behind & -> & -> & Ha & Hbefore & Hbehind)];
      cbn [scanAltitude].
    + destruct ((Altitude.rating x >? m) && (Altitude.rating x >? 0)) eqn:Hc.
      * right. exists bands, x, []. repeat split; try lia; [| constructor].
        eapply List.Forall_impl; [| exact Hall]. cbv beta. intros b Hb. lia.
      * left. split; [reflexivity |].
        apply List.Forall_app. split; [exact Hall |].
        constructor; [lia | constructor].
    + destruct ((Altitude.rating x >? Altitude.rating a) && (Altitude.rating x >? 0))
        eqn:Hc.
      * right. exists (before ++ a :: behind), x, []. repeat split; try lia; [| constructor].
        apply List.Forall_app. split.
        -- eapply List.Forall_impl; [| exact Hbefore]. cbv beta. intros b Hb. lia.
        -- constructor; [lia |].
           eapply List.Forall_impl; [| exact Hbehind]. cbv beta. intros b Hb. lia.
      * right. exists before, a, (behind ++ [x]).
        rewrite <- app_assoc. repeat split; try assumption.
        apply List.Forall_app. split; [exact Hbehind |].
        constructor; [lia | constructor].
Qed.

Lemma withInsufficientSnow_fst (altitudeDanger : option (list Altitude.t))
    (acc : Z * string) :
  fst (withInsufficientSnow altitudeDanger acc) = fst acc.
Proof.
  destruct acc as [m text]. unfold withInsufficientSnow.
  destruct (Z.eqb_spec m 0) as [-> |]; [| reflexivity].
  destruct (findInsufficientSnow altitudeDanger); reflexivity.
Qed.

Lemma withInsufficientSnow_snd (altitudeDanger : option (list Altitude.t))
    (acc : Z * string) :
  0 < fst acc -> snd (withInsufficientSnow altitudeDanger acc) = snd acc.
Proof.
  destruct acc as [m text]. unfold withInsufficientSnow. cbn [fst]. intros Hm.
  destruct (Z.eqb_spec m 0); [lia | reflexivity].
Qed.

Lemma highestRating_nonnegative (forecast : Forecast.t) :
  0 <= fst (highestRating (Forecast.altitudeDanger forecast)).
Proof.
  rewrite highestRating_fold. apply scan_nonnegative. lia.
Qed.

Lemma normalized_level (regionId : Z) (forecast : Forecast.t) (expires : Z) :
  AvalancheData.level (normalized regionId forecast expires)
  = fst (highestRating (Forecast.altitudeDanger forecast)).
Proof.
  unfold normalized. cbn [AvalancheData.level]. rewrite withInsufficientSnow_fst.
  pose proof (highestRating_nonnegative forecast). lia.
Qed.

Lemma normalized_levelText (regionId : Z) (forecast : Forecast.t) (expires : Z) :
  AvalancheData.levelText (normalized regionId forecast expires)
  = getDangerLevelText (AvalancheData.level (normalized regionId forecast expires)).
Proof.
  rewrite normalized_level. unfold normalized. cbn [AvalancheData.levelText].
  rewrite withInsufficientSnow_fst. reflexivity.
Qed.

Lemma getDangerLevelText_not_insufficient (rating : Z) :
  0 <= rating -> getDangerLevelText rating <> "Insufficient Snow".
Proof.
  intros Hr. unfold getDangerLevelText.
  destruct (Z.eqb_spec rating (-2)); [lia |].
  repeat match goal with
         | |- context [?a =? ?b] => destruct (Z.eqb_spec a b); [discriminate |]
         end.
  discriminate.
Qed.

(** X3. The level of a record is the highest rating of the bands of the
    forecast, and 0 when no band is rated above 0: no band is rated above
    the level, and a level above 0 is the rating of a band.  The level is
    never negative, so [Math.max(0, maxRating)] changes nothing, the level
    text is the text of the level, and it is never "Insufficient Snow". *)
Theorem level_is_highest_rating (regionId : Z) (response : fetched ForecastList.t)
    (result : AvalancheData.t) :
  fst (getForecastData regionId response) = Some result ->
  exists data forecast,
    response = Ok data
    /\ firstMatching regionId data = Some forecast
    /\ Forall (fun b => Altitude.rating b <= AvalancheData.level result) (bandsOf forecast)
    /\ (AvalancheData.level result = 0
        \/ exists b, In b (bandsOf forecast)
                     /\ Altitude.rating b = AvalancheData.level result)
    /\ 0 <= AvalancheData.level result
    /\ AvalancheData.levelText result = getDangerLevelText (AvalancheData.level result)
    /\ AvalancheData.levelText result <> "Insufficient Snow".
Proof.
  intros Hresult.
  apply getForecastData_Some_inv in Hresult
    as (data & forecast & expires & -> & Hfirst & He & ->).
  exists data, forecast. split; [reflexivity |]. split; [exact Hfirst |].
  rewrite normalized_levelText, normalized_level.
  pose proof (highestRating_nonnegative forecast) as Hnonneg.
  rewrite highestRating_fold in *.
  destruct (scan_first_highest (bandsOf forecast) 0 "No rating available" (Z.le_refl 0))
    as [[-> Hall] | (before & a & behind & Hbands & -> & Ha & Hbefore & Hbehind)];
    cbn [fst] in *.
  - refine (conj Hall (conj (or_introl eq_refl) (conj (Z.le_refl 0) (conj eq_refl _)))).
    apply getDangerLevelText_not_insufficient. lia.
  - refine (conj _ (conj _ (conj _ (conj eq_refl _)))).
    + rewrite Hbands. apply List.Forall_app. split.
      * eapply List.Forall_impl; [| exact Hbefore]. cbv beta. intros b Hb. lia.
      * constructor; [lia | exact Hbehind].
    + right. exists a. split; [| reflexivity].
      rewrite Hbands. apply in_or_app. right. now left.
    + lia.
    + apply getDangerLevelText_not_insufficient. lia.
Qed.

(** X4. When a band is rated above 0 and [importantInformation] is empty,
    the description is that of the first band that has the highest rating;
    a band rated -2 plays no part. *)
Theorem description_of_first_highest (regionId : Z) (response : fetched ForecastList.t)
    (result : AvalancheData.t) :
  fst (getForecastData regionId response) = Some result ->
  0 < AvalancheData.level result ->
  exists data forecast before a behind,
    response = Ok data
    /\ firstMatching regionId data = Some forecast
    /\ bandsOf forecast = before ++ a :: behind
    /\ Altitude.rating a = AvalancheData.level result
    /\ Forall (fun b => Altitude.rating b < AvalancheData.level result) before
    /\ Forall (fun b => Altitude.rating b <= AvalancheData.level result) behind
    /\ (Forecast.importantInformation forecast = EmptyString ->
        AvalancheData.description result = Altitude.description a).
Proof.
  intros Hresult Hlevel.
  apply getForecastData_Some_inv in Hresult
    as (data & forecast & expires & -> & Hfirst & He & ->).
  rewrite normalized_level in *.
  assert (Hsnd : Forecast.importantInformation forecast = EmptyString ->
                 AvalancheData.description (normalized regionId forecast expires)
                 = snd (highestRating (Forecast.altitudeDanger forecast))).
  { intros Hinfo. unfold normalized, describe. cbn [AvalancheData.description].
    rewrite Hinfo. cbn [truthy_string].
    apply withInsufficientSnow_snd. exact Hlevel. }
  rewrite highestRating_fold in *.
  destruct (scan_first_highest (bandsOf forecast) 0 "No rating available" (Z.le_refl 0))
    as [[Hsame Hall] | (before & a & behind & Hbands & Hscan & Ha & Hbefore & Hbehind)].
  - rewrite Hsame in Hlevel. cbn [fst] in Hlevel. lia.
  - rewrite Hscan in *. cbn [fst snd] in *.
    exists data, forecast, before, a, behind.
    refine (conj eq_refl (conj Hfirst (conj Hbands (conj eq_refl
              (conj Hbefore (conj Hbehind Hsnd)))))).
Qed.

(** X5. A record whose level is above 5 is labelled "Level N" with its
    level, while its colour and its icon are those of level 0. *)
Theorem above_scale (regionId : Z) (response : fetched ForecastList.t)
    (result : AvalancheData.t) :
  fst (getForecastData regionId response) = Some result ->
  5 < AvalancheData.level result ->
  AvalancheData.levelText result
  = "Level " +:+ String_of_number (AvalancheData.level result)
  /\ lookupOrZero AVALANCHE_COLORS (AvalancheData.level result) = Some "rgb(128, 128, 128)"
  /\ lookupOrZero AVALANCHE_ICONS (AvalancheData.level result) = AVALANCHE_ICONS !! 0.
Proof.
  intros Hresult Hlevel.
  apply getForecastData_Some_inv in Hresult
    as (data & forecast & expires & _ & _ & _ & ->).
  rewrite normalized_levelText.
  set (level := AvalancheData.level (normalized regionId forecast expires)) in *.
  split; [| split].
  - unfold getDangerLevelText.
    repeat match goal with
           | |- context [?a =? ?b] => destruct (Z.eqb_spec a b); [lia |]
           end.
    reflexivity.
  - unfold lookupOrZero. rewrite colors_untabled by (unfold tabled; lia). reflexivity.
  - unfold lookupOrZero. rewrite icons_untabled by (unfold tabled; lia). reflexivity.
Qed.

End Levels.

(** *** The description taken from [importantInformation] *)

Lemma hasGt_stripped (s : string) :
  (hasGt (replaceTags s) = true -> hasGt s = true)
  /\ (hasGt (insideTag s) = true -> hasGt s = true).
Proof.
  induction s as [| c r [IHr IHi]]; [split; discriminate |].
  split; cbn [replaceTags insideTag hasGt].
  - destruct (isLt c && hasGt r).
    + intros Hi. rewrite (IHi Hi). apply orb_true_r.
    + cbn [hasGt]. intros Hr. apply orb_true_iff in Hr as [-> | Hr]; [reflexivity |].
      rewrite (IHr Hr). apply orb_true_r.
  - destruct (isGt c); [reflexivity |]. cbn [orb]. exact IHi.
Qed.

Lemma noTag_stripped (s : string) :
  noTag (replaceTags s) = true /\ noTag (insideTag s) = true.
Proof.
  induction s as [| c r [IHr IHi]]; [split; reflexivity |].
  split; cbn [replaceTags insideTag].
  - destruct (isLt c && hasGt r) eqn:Hc; [exact IHi |].
    cbn [noTag]. rewrite IHr, andb_true_r.
    destruct (isLt c); [| reflexivity]. cbn [andb] in *.
    destruct (hasGt (replaceTags r)) eqn:Hr; [| reflexivity].
    rewrite (proj1 (hasGt_stripped r) Hr) in Hc. discriminate.
  - destruct (isGt c); assumption.
Qed.

Lemma noTag_trimStart (s : string) : noTag s = true -> noTag (trimStart s) = true.
Proof.
  induction s as [| c r IH]; [reflexivity |].
  cbn [trimStart]. destruct (isWhiteSpace c); [| trivial].
  cbn [noTag]. intros Hs. apply andb_prop in Hs as [_ Hr]. exact (IH Hr).
Qed.

Lemma hasGt_trimEnd (s : string) : hasGt (trimEnd s) = true -> hasGt s = true.
Proof.
  induction s as [| c r IH]; [discriminate |].
  cbn [trimEnd hasGt]. destruct (trimEnd r) as [| c' r'].
  - destruct (isWhiteSpace c); [discriminate |].
    cbn [hasGt]. rewrite orb_false_r. intros ->. reflexivity.
  - cbn [hasGt] in *. intros Hs. apply orb_true_iff in Hs as [-> | Hr]; [reflexivity |].
    rewrite (IH Hr). apply orb_true_r.
Qed.

Lemma noTag_trimEnd (s : string) : noTag s = true -> noTag (trimEnd s) = true.
Proof.
  induction s as [| c r IH]; [reflexivity |].
  cbn [noTag]. intros Hs. apply andb_prop in Hs as [Hc Hr].
  specialize (IH Hr). pose proof (hasGt_trimEnd r) as Hgt.
  cbn [trimEnd]. destruct (trimEnd r) as [| c' r'].
  - destruct (isWhiteSpace c); [reflexivity |].
    cbn [noTag hasGt]. rewrite andb_false_r. reflexivity.
  - change (negb (isLt c && hasGt (String c' r')) && noTag (String c' r') = true).
    rewrite IH, andb_true_r.
    destruct (isLt c); [| reflexivity]. cbn [andb] in *.
    destruct (hasGt (String c' r')) eqn:Hr'; [| reflexivity].
    rewrite (Hgt eq_refl) in Hc. discriminate.
Qed.

Lemma startsWithSpace_trimStart (s : string) : startsWithSpace (trimStart s) = false.
Proof.
  induction s as [| c r IH]; [reflexivity |].
  cbn [trimStart]. destruct (isWhiteSpace c) eqn:Hc; [exact IH |].
  cbn [startsWithSpace]. exact Hc.
Qed.

Lemma startsWithSpace_trimEnd (s : string) :
  startsWithSpace s = false -> startsWithSpace (trimEnd s) = false.
Proof.
  destruct s as [| c r]; [reflexivity |].
  cbn [startsWithSpace trimEnd]. intros Hc. rewrite Hc.
  destruct (trimEnd r); cbn [startsWithSpace]; exact Hc.
Qed.

Lemma endsWithSpace_trimEnd (s : string) : endsWithSpace (trimEnd s) = false.
Proof.
  induction s as [| c r IH]; [reflexivity |].
  cbn [trimEnd]. destruct (trimEnd r) as [| c' r'].
  - destruct (isWhiteSpace c) eqn:Hc; [reflexivity |].
    cbn [endsWithSpace]. exact Hc.
  - exact IH.
Qed.

Lemma stripped_clean (s : string) :
  noTag (trim (replaceTags s)) = true
  /\ startsWithSpace (trim (replaceTags s)) = false
  /\ endsWithSpace (trim (replaceTags s)) = false.
Proof.
  unfold trim. split; [| split].
  - apply noTag_trimEnd, noTag_trimStart, noTag_stripped.
  - apply startsWithSpace_trimEnd, startsWithSpace_trimStart.
  - apply endsWithSpace_trimEnd.
Qed.

(** X8. Whatever stands between a [<] and the next [>] is dropped with
    them, markup or not: of text with no [<] before the first one and no
    [>] inside, only the part before the [<] and the stripped part behind
    the [>] remain. *)
Theorem between_angles_dropped (before inside behind : string) :
  hasLt before = false ->
  hasGt inside = false ->
  replaceTags (before +:+ "<" +:+ inside +:+ ">" +:+ behind)
  = before +:+ replaceTags behind.
Proof.
  intros Hbefore Hinside. induction before as [| c before IH].
  - exact (replaceTags_tag inside behind Hinside).
  - cbn [hasLt] in Hbefore. apply orb_false_elim in Hbefore as [Hc Hbefore].
    change (replaceTags (String c (before +:+ "<" +:+ inside +:+ ">" +:+ behind))
            = String c (before +:+ replaceTags behind)).
    cbn [replaceTags]. rewrite Hc. cbn [andb]. rewrite (IH Hbefore). reflexivity.
Qed.

(** X9. Text without a [<], and text without a [>], is left as it is by the
    stripping: a lone [<] or [>] is kept. *)
Theorem unpaired_angles_kept (s : string) :
  hasLt s = false \/ hasGt s = false -> replaceTags s = s.
Proof.
  intros [Hs | Hs]; induction s as [| c r IH]; try reflexivity.
  - cbn [hasLt] in Hs. apply orb_false_elim in Hs as [Hc Hr].
    cbn [replaceTags]. rewrite Hc. cbn [andb]. rewrite (IH Hr). reflexivity.
  - cbn [hasGt] in Hs. apply orb_false_elim in Hs as [Hc Hr].
    cbn [replaceTags]. rewrite Hr, andb_false_r. rewrite (IH Hr). reflexivity.
Qed.

Section Descriptions.
Context {H : Host}.

(** X7. When [importantInformation] is not empty, the description of the
    record is that text stripped and trimmed: it has no [<] with a [>]
    behind it, and neither starts nor ends with white space. *)
Theorem description_clean (regionId : Z) (response : fetched ForecastList.t)
    (result : AvalancheData.t) :
  fst (getForecastData regionId response) = Some result ->
  exists data forecast,
    response = Ok data
    /\ firstMatching regionId data = Some forecast
    /\ (Forecast.importantInformation forecast <> EmptyString ->
        AvalancheData.description result
        = trim (replaceTags (Forecast.importantInformation forecast))
        /\ noTag (AvalancheData.description result) = true
        /\ startsWithSpace (AvalancheData.description result) = false
        /\ endsWithSpace (AvalancheData.description result) = false).
Proof.
  intros Hresult.
  apply getForecastData_Some_inv in Hresult
    as (data & forecast & expires & -> & Hfirst & He & ->).
  exists data, forecast. split; [reflexivity |]. split; [exact Hfirst |].
  intros Hfilled. unfold normalized, describe. cbn [AvalancheData.description].
  destruct (Forecast.importantInformation forecast) as [| c rest];
    [destruct (Hfilled eq_refl) |].
  cbn [truthy_string]. split; [reflexivity |]. apply stripped_clean.
Qed.

End Descriptions.

(** *** [parseDate] and the times of a feature *)

Section Dates.
Context {H : Host}.




Lemma truthy_append (a b : string) (c : ascii) : truthy_string (a +:+ String c b) = true.
Proof. destruct a; reflexivity. Qed.

(** An ISO string is not empty. *)
Lemma isoOfTime_truthy (t : Z) : truthy_string (isoOfTime t) = true.
Proof.
  unfold isoOfTime. destruct (civil_of_days (t / msPerDay)) as [[y m] d].
  apply (truthy_append (isoYear y) _ "-").
Qed.

(** X11. In the properties of the features of a record, [time] and [start]
    are the ISO string of the time that [created] parses to, the fall-backs
    of [parseDate] are never taken for them, and [stale] is always there;
    on a host whose [Date] reads the ISO string of the expiry back, [stale]
    is [expires] itself. *)
Theorem feature_times (regionId : Z) (data : ForecastList.t) (forecast : Forecast.t)
    (t e : Z) (regionInfo : RegionInfo.t) :
  firstMatching regionId data = Some forecast ->
  Date_of_string (Forecast.created forecast) = Some t ->
  expiry forecast = Some e ->
  exists result,
    fst (getForecastData regionId (Ok data)) = Some result
    /\ Properties.time (baseProperties regionId regionInfo result) = isoOfTime t
    /\ Properties.start (baseProperties regionId regionInfo result) = isoOfTime t
    /\ Properties.stale (baseProperties regionId regionInfo result)
       = Some (parseDate (AvalancheData.expires result))
    /\ (Date_of_string (isoOfTime e) = Some e ->
        Properties.stale (baseProperties regionId regionInfo result)
        = Some (AvalancheData.expires result)).
Proof.
  intros Hfirst Ht He.
  exists (normalized regionId forecast e).
  rewrite (getForecastData_resolved regionId data forecast e Hfirst He).
  unfold baseProperties, normalized.
  cbn [fst AvalancheData.start AvalancheData.expires Properties.time Properties.start
         Properties.stale].
  rewrite (parseDate_valid _ t Ht), isoOfTime_truthy.
  refine (conj eq_refl (conj eq_refl (conj eq_refl (conj eq_refl _)))).
  intros Hback. rewrite (parseDate_valid _ e Hback). reflexivity.
Qed.

End Dates.

(** *** Region geometry, both ways *)

Section Extraction.
Context {H : Host}.

Lemma truthy_get (v : value) (name : string) :
  truthy v = true -> exists x, get v name = Return x.
Proof. destruct v as [[] |]; try discriminate; simpl; eauto. Qed.

Lemma truthy_item (v : value) (i : nat) :
  truthy v = true -> exists x, item v i = Return x.
Proof. destruct v as [[] |]; try discriminate; simpl; eauto. Qed.

Lemma readPolygon_Some (geometry : string) (coordinates : json) :
  readPolygon geometry = Return (Some coordinates)
  <-> exists document,
        JSON_parse geometry = Some document /\ polygonAt document coordinates.
Proof.
  unfold readPolygon, polygonAt. split.
  - destruct (JSON_parse geometry) as [document |]; [| discriminate].
    intros Hread. exists document. split; [reflexivity |].
    apply bind_Return in Hread as (layers & Hlayers & Hread).
    destruct (truthy layers) eqn:Tlayers; [| discriminate].
    apply bind_Return in Hread as (first & Hfirst & Hread).
    destruct (truthy first) eqn:Tfirst; [| discriminate].
    apply bind_Return in Hread as (geom & Hgeom & Hread).
    destruct (truthy geom) eqn:Tgeom; [| discriminate].
    apply bind_Return in Hread as (type & Htype & Hread).
    destruct (strictEqString type "Polygon") eqn:Heq; [| discriminate].
    apply strictEqString_true in Heq. subst type.
    apply bind_Return in Hread as (c & Hc & Hread).
    destruct (truthy c) eqn:Tc; [| discriminate].
    injection Hread as ->.
    exists layers, first, geom. auto 10.
  - intros (document & -> & layers & first & geom
            & Hlayers & Tlayers & Hfirst & Tfirst & Hgeom & Tgeom & Htype & Hc & Tc).
    rewrite Hlayers. cbn [bind]. rewrite Tlayers, Hfirst. cbn [bind].
    rewrite Tfirst, Hgeom. cbn [bind]. rewrite Tgeom, Htype. cbn [bind strictEqString].
    rewrite String.eqb_refl, Hc. cbn [bind]. rewrite Tc. reflexivity.
Qed.

Lemma readPolygon_Throw (geometry : string) :
  (exists e, readPolygon geometry = Throw e)
  <-> JSON_parse geometry = None \/ JSON_parse geometry = Some JNull.
Proof.
  unfold readPolygon. split.
  - destruct (JSON_parse geometry) as [document |]; [| auto].
    intros [e Hthrow]. right. f_equal.
    destruct document; try reflexivity; exfalso; cbn [get bind] in Hthrow;
      repeat match type of Hthrow with
             | (if ?b then _ else _) = _ => destruct b eqn:?; [| discriminate]
             | bind (get ?v ?n) _ = _ =>
                 let x := fresh "x" in
                 let Hx := fresh "Hx" in
                 destruct (truthy_get v n) as [x Hx]; [assumption |];
                 rewrite Hx in Hthrow; cbn [bind] in Hthrow
             | bind (item ?v ?n) _ = _ =>
                 let x := fresh "x" in
                 let Hx := fresh "Hx" in
                 destruct (truthy_item v n) as [x Hx]; [assumption |];
                 rewrite Hx in Hthrow; cbn [bind] in Hthrow
             end; discriminate.
  - intros [-> | ->]; eexists; reflexivity.
Qed.

(** X12. Polygon coordinates come out of a geometry string exactly when it
    is JSON whose [layers], [layers[0]] and [layers[0].geometry] are truthy,
    with the type "Polygon" and truthy coordinates; what comes out is those
    coordinates as they are, whatever their shape. *)
Theorem parseGeometry_Some_iff (regionId : Z) (geometry : string) (coordinates : json) :
  fst (parseGeometry regionId geometry) = Some coordinates
  <-> exists document,
        JSON_parse geometry = Some document /\ polygonAt document coordinates.
Proof.
  rewrite <- readPolygon_Some. unfold parseGeometry.
  destruct (readPolygon geometry) as [v | e]; cbn [fst ret seq emit]; split.
  - intros ->. reflexivity.
  - intros [= ->]. reflexivity.
  - discriminate.
  - discriminate.
Qed.

(** X13. The warning about the geometry is logged exactly when the string
    is not JSON or is the JSON [null]; every other document that gives no
    polygon is passed over in silence. *)
Theorem parseGeometry_warns_iff (regionId : Z) (geometry : string) :
  (snd (parseGeometry regionId geometry)
   = [console_warn ("Failed to parse geometry for region "
                      +:+ String_of_number regionId +:+ ":")]
   <-> JSON_parse geometry = None \/ JSON_parse geometry = Some JNull)
  /\ (snd (parseGeometry regionId geometry) = []
      <-> exists document, JSON_parse geometry = Some document /\ document <> JNull).
Proof.
  pose proof (readPolygon_Throw geometry) as Hthrow. unfold parseGeometry.
  destruct (readPolygon geometry) as [v | e] eqn:Hread; cbn [snd ret seq emit app].
  - assert (Hnot : ~ (JSON_parse geometry = None \/ JSON_parse geometry = Some JNull)).
    { intros Hbad. apply Hthrow in Hbad as [e He]. discriminate. }
    split; split; try discriminate; try tauto.
    intros _. destruct (JSON_parse geometry) as [document |]; [| tauto].
    exists document. split; [reflexivity |]. intros ->. tauto.
  - assert (Hbad : JSON_parse geometry = None \/ JSON_parse geometry = Some JNull)
      by (apply Hthrow; eauto).
    split; split; try discriminate; try tauto.
    intros (document & Hdoc & Hnull). destruct Hbad as [Hbad | Hbad];
      rewrite Hdoc in Hbad; [discriminate | injection Hbad as ->; tauto].
Qed.

End Extraction.

(** *** The collection *)

Section Collection.
Context {H : Host}.
Variable w : Surroundings.

Lemma pushed_ids (regionId : Z) (regionInfo : RegionInfo.t) (data : AvalancheData.t)
    (polygonCoordinates : value) :
  map Feature.id (pushed regionId regionInfo data polygonCoordinates)
    `sublist_of` idsOf regionId.
Proof.
  unfold pushed, idsOf.
  destruct polygonCoordinates as [coordinates |];
    [destruct (truthy (Some coordinates)) |]; cbn [map app polygonFeature pointFeature
                                                     Feature.id].
  - reflexivity.
  - apply sublist_cons. reflexivity.
  - apply sublist_cons. reflexivity.
Qed.

Lemma contribution_ids (regionId : Z) :
  map Feature.id (contribution w regionId) `sublist_of` idsOf regionId.
Proof.
  unfold contribution.
  destruct (dataOf w regionId) as [data |]; [| apply sublist_nil_l].
  destruct (regionInfoOf w regionId) as [regionInfo |]; [| apply sublist_nil_l].
  apply pushed_ids.
Qed.

Lemma catalogIds_NoDup : NoDup catalogIds.
Proof. refine (bool_decide_unpack (NoDup catalogIds) _). vm_compute. exact I. Qed.

(** X15. The ids of the features of the collection are taken, in order and
    without repetition, from the ids of the catalog: for each region in
    turn [avalanche-<id>] and then [avalanche-<id>-center].  So no two
    features of a collection have the same id, and there are 26 at most. *)
Theorem collection_ids :
  map Feature.id (FeatureCollection.features (collected w)) `sublist_of` catalogIds
  /\ NoDup (map Feature.id (FeatureCollection.features (collected w)))
  /\ (length (FeatureCollection.features (collected w)) <= 26)%nat.
Proof.
  assert (Hsub : map Feature.id (FeatureCollection.features (collected w))
                   `sublist_of` catalogIds).
  { cbn [collected FeatureCollection.features]. unfold catalogIds.
    induction VALID_REGIONS as [| regionId rest IH]; [reflexivity |].
    cbn [flat_map]. rewrite map_app.
    apply sublist_app; [apply contribution_ids | exact IH]. }
  split; [exact Hsub |]. split.
  - exact (sublist_NoDup _ _ catalogIds_NoDup Hsub).
  - apply sublist_length in Hsub. rewrite length_map in Hsub. exact Hsub.
Qed.

(** X17. Every feature of the collection belongs to a region of the
    catalog and to the record of that region: it has the type "Feature" and
    the marker type "a-o-X-i-g-h", a [stale] time, and one link, whose uid
    is [avalanche-<id>] (for the Point too) and whose url is the page of
    that region.  A Polygon has, as stroke and as fill, the colour that
    [AVALANCHE_COLORS] has for the level of the record, or the one it has
    for level 0 when it has none for that level, with width 2, opacities
    0.4 and a solid stroke; a Point has the icon that [AVALANCHE_ICONS] has
    for the level, or the one for level 0. *)
Theorem feature_invariant (feature : Feature.t) :
  In feature (FeatureCollection.features (collected w)) ->
  exists regionId data,
    In regionId VALID_REGIONS
    /\ dataOf w regionId = Some data
    /\ Feature.type feature = "Feature"
    /\ Properties.type (Properties.shared (Feature.properties feature)) = "a-o-X-i-g-h"
    /\ Properties.stale (Properties.shared (Feature.properties feature)) <> None
    /\ Properties.links (Properties.shared (Feature.properties feature))
       = [ {| Link.uid := "avalanche-" +:+ String_of_number regionId;
              Link.relation := "r-u";
              Link.mime := "text/html";
              Link.url := "https://www.avalanche.net.nz/region/"
                            +:+ String_of_number regionId;
              Link.remarks := "Avalanche Forecast Details" |} ]
    /\ match Feature.geometry feature with
       | Geometry.Polygon _ =>
           exists color,
             (AVALANCHE_COLORS !! AvalancheData.level data = Some color
              \/ (AVALANCHE_COLORS !! AvalancheData.level data = None
                  /\ AVALANCHE_COLORS !! 0 = Some color))
             /\ Properties.own (Feature.properties feature)
                = Properties.OfPolygon (Some color) 0.4 2 "solid" 0.4 (Some color)
       | Geometry.Point _ =>
           exists icon,
             (AVALANCHE_ICONS !! AvalancheData.level data = Some icon
              \/ (AVALANCHE_ICONS !! AvalancheData.level data = None
                  /\ AVALANCHE_ICONS !! 0 = Some icon))
             /\ Properties.own (Feature.properties feature) = Properties.OfPoint (Some icon)
       end.
Proof.
  cbn [collected FeatureCollection.features]. intros Hin.
  apply in_flat_map in Hin as (regionId & Hregion & Hin).
  exists regionId. unfold contribution in Hin.
  destruct (dataOf w regionId) as [data |] eqn:Hdata; [| destruct Hin].
  destruct (regionInfoOf w regionId) as [regionInfo |]; [| destruct Hin].
  exists data. split; [exact Hregion |]. split; [reflexivity |].
  pose proof Hdata as Hrecord. unfold dataOf in Hrecord.
  apply getForecastData_Some_inv in Hrecord
    as (body & forecast & expires & _ & _ & _ & Hnormalized).
  assert (Hstale : Properties.stale (baseProperties regionId regionInfo data) <> None).
  { rewrite Hnormalized. unfold baseProperties, normalized.
    cbn [Properties.stale AvalancheData.expires].
    rewrite isoOfTime_truthy. discriminate. }
  assert (Hlinks : Properties.links (baseProperties regionId regionInfo data)
                   = [ {| Link.uid := "avalanche-" +:+ String_of_number regionId;
                          Link.relation := "r-u";
                          Link.mime := "text/html";
                          Link.url := "https://www.avalanche.net.nz/region/"
                                        +:+ String_of_number regionId;
                          Link.remarks := "Avalanche Forecast Details" |} ]).
  { rewrite Hnormalized. reflexivity. }
  assert (Hcolor : exists color,
             (AVALANCHE_COLORS !! AvalancheData.level data = Some color
              \/ (AVALANCHE_COLORS !! AvalancheData.level data = None
                  /\ AVALANCHE_COLORS !! 0 = Some color))
             /\ lookupOrZero AVALANCHE_COLORS (AvalancheData.level data) = Some color).
  { unfold lookupOrZero. destruct (tabled (AvalancheData.level data)) eqn:Hl.
    - destruct (colors_tabled _ Hl) as (color & Hc & Htruthy).
      exists color. rewrite Hc. cbn [orElse]. rewrite Htruthy. auto.
    - rewrite (colors_untabled _ Hl). cbn [orElse].
      destruct (colors_tabled 0 eq_refl) as (color & Hc & _).
      exists color. rewrite Hc. auto. }
  assert (Hicon : exists icon,
             (AVALANCHE_ICONS !! AvalancheData.level data = Some icon
              \/ (AVALANCHE_ICONS !! AvalancheData.level data = None
                  /\ AVALANCHE_ICONS !! 0 = Some icon))
             /\ lookupOrZero AVALANCHE_ICONS (AvalancheData.level data) = Some icon).
  { unfold lookupOrZero. destruct (tabled (AvalancheData.level data)) eqn:Hl.
    - destruct (icons_tabled _ Hl) as (icon & Hi & Htruthy).
      exists icon. rewrite Hi. cbn [orElse]. rewrite Htruthy. auto.
    - rewrite (icons_untabled _ Hl). cbn [orElse].
      destruct (icons_tabled 0 eq_refl) as (icon & Hi & _).
      exists icon. rewrite Hi. auto. }
  unfold pushed in Hin. apply in_app_or in Hin as [Hin | [<- | []]].
  - destruct (fst (parseGeometry _ _)) as [c |]; [| destruct Hin].
    destruct (truthy (Some c)); [| destruct Hin].
    destruct Hin as [<- | []].
    cbn [polygonFeature Feature.type Feature.properties Feature.geometry
           Properties.shared Properties.own].
    refine (conj eq_refl (conj eq_refl (conj Hstale (conj Hlinks _)))).
    destruct Hcolor as (color & Htable & ->). exists color. split; [exact Htable | reflexivity].
  - cbn [pointFeature Feature.type Feature.properties Feature.geometry
           Properties.shared Properties.own].
    refine (conj eq_refl (conj eq_refl (conj Hstale (conj Hlinks _)))).
    destruct Hicon as (icon & Htable & ->). exists icon. split; [exact Htable | reflexivity].
Qed.

End Collection.

(** *** The further properties on the reference host *)

Section FurtherWitnesses.
Import Reference Sample.
#[local] Existing Instance reference.

Lemma getForecastData_Some_iff_witness :
  fst (getForecastData 1 (Ok payload)) = Some considerableData.
Proof.
  apply (proj2 (getForecastData_Some_iff 1 (Ok payload) considerableData)).
  exists payload, considerable, 1735776000000.
  repeat split; vm_compute; reflexivity.
Defined.

Lemma getForecastData_first_only_witness :
  getForecastData 1
    (Ok {| ForecastList.forecasts := Some ([insufficient; hollow] ++ considerable :: [older]) |})
  = getForecastData 1 (Ok {| ForecastList.forecasts := Some [considerable] |}).
Proof.
  apply getForecastData_first_only.
  - repeat constructor; discriminate.
  - reflexivity.
Defined.

Lemma level_is_highest_rating_witness :
  exists result,
    fst (getForecastData 7 (Ok winter)) = Some result
    /\ Forall (fun b => Altitude.rating b <= AvalancheData.level result) (bandsOf layered)
    /\ AvalancheData.levelText result <> "Insufficient Snow".
Proof.
  exists (normalized 7 layered 1748930400000).
  assert (Hresult : fst (getForecastData 7 (Ok winter))
                    = Some (normalized 7 layered 1748930400000))
    by (vm_compute; reflexivity).
  destruct (level_is_highest_rating 7 (Ok winter) _ Hresult)
    as (data & forecast & Hdata & Hfirst & Hall & _ & _ & _ & Htext).
  injection Hdata as <-.
  assert (Hforecast : forecast = layered)
    by (vm_compute in Hfirst; injection Hfirst as <-; reflexivity).
  subst forecast. auto.
Defined.

Lemma description_of_first_highest_witness :
  exists result a,
    fst (getForecastData 7 (Ok winter)) = Some result
    /\ Altitude.rating a = AvalancheData.level result
    /\ AvalancheData.description result = Altitude.description a.
Proof.
  exists (normalized 7 layered 1748930400000).
  assert (Hresult : fst (getForecastData 7 (Ok winter))
                    = Some (normalized 7 layered 1748930400000))
    by (vm_compute; reflexivity).
  assert (Hlevel : 0 < AvalancheData.level (normalized 7 layered 1748930400000))
    by (vm_compute; reflexivity).
  destruct (description_of_first_highest 7 (Ok winter) _ Hresult Hlevel)
    as (data & forecast & before & a & behind
        & Hdata & Hfirst & _ & Hrating & _ & _ & Hdescription).
  injection Hdata as <-.
  assert (Hforecast : forecast = layered)
    by (vm_compute in Hfirst; injection Hfirst as <-; reflexivity).
  subst forecast. exists a. auto.
Defined.

Lemma above_scale_witness :
  AvalancheData.levelText (normalized 8 offScale 1748844000000) = "Level 7"
  /\ lookupOrZero AVALANCHE_COLORS 7 = Some "rgb(128, 128, 128)".
Proof.
  assert (Hresult : fst (getForecastData 8 (Ok winter))
                    = Some (normalized 8 offScale 1748844000000))
    by (vm_compute; reflexivity).
  assert (Hlevel : 5 < AvalancheData.level (normalized 8 offScale 1748844000000))
    by (vm_compute; reflexivity).
  destruct (above_scale 8 (Ok winter) _ Hresult Hlevel) as (Htext & Hcolor & _).
  split; [exact Htext | exact Hcolor].
Defined.

Lemma description_clean_witness :
  exists result,
    fst (getForecastData 9 (Ok winter)) = Some result
    /\ noTag (AvalancheData.description result) = true
    /\ startsWithSpace (AvalancheData.description result) = false
    /\ endsWithSpace (AvalancheData.description result) = false.
Proof.
  exists (normalized 9 advisory 1748844000000).
  assert (Hresult : fst (getForecastData 9 (Ok winter))
                    = Some (normalized 9 advisory 1748844000000))
    by (vm_compute; reflexivity).
  destruct (description_clean 9 (Ok winter) _ Hresult)
    as (data & forecast & Hdata & Hfirst & Hclean).
  injection Hdata as <-.
  assert (Hforecast : forecast = advisory)
    by (vm_compute in Hfirst; injection Hfirst as <-; reflexivity).
  subst forecast.
  destruct Hclean as (_ & Htag & Hstart & Hend); [discriminate |]. auto.
Defined.

Lemma between_angles_dropped_witness :
  replaceTags "Snow < 5 cm, wind > 40 km/h" = "Snow  40 km/h".
Proof.
  apply (between_angles_dropped "Snow " " 5 cm, wind " " 40 km/h"); reflexivity.
Defined.

Lemma unpaired_angles_kept_witness :
  replaceTags "Wind > 40 km/h" = "Wind > 40 km/h"
  /\ replaceTags "Snow < 5 cm" = "Snow < 5 cm".
Proof.
  split; apply unpaired_angles_kept; [left | right]; reflexivity.
Defined.


Lemma feature_times_witness :
  exists result,
    fst (getForecastData 1 (Ok payload)) = Some result
    /\ Properties.time (baseProperties 1 (region 1 "Tongariro" polygonText) result)
       = isoOfTime 1735689600000
    /\ Properties.stale (baseProperties 1 (region 1 "Tongariro" polygonText) result)
       = Some (AvalancheData.expires result).
Proof.
  destruct (feature_times 1 payload considerable 1735689600000 1735776000000
              (region 1 "Tongariro" polygonText))
    as (result & Hresult & Htime & _ & _ & Hstale).
  - reflexivity.
  - vm_compute. reflexivity.
  - vm_compute. reflexivity.
  - exists result. split; [exact Hresult |]. split; [exact Htime |].
    apply Hstale. vm_compute. reflexivity.
Defined.

Lemma parseGeometry_Some_iff_witness :
  exists document,
    JSON_parse polygonText = Some document
    /\ polygonAt document
         (JArray [JArray [JArray [JNumber 170.5; JNumber (-43.5)];
                          JArray [JNumber 171; JNumber (-44)];
                          JArray [JNumber 170.5; JNumber (-43.5)]]]).
Proof.
  apply (proj1 (parseGeometry_Some_iff 1 polygonText _)).
  vm_compute. reflexivity.
Defined.

Lemma parseGeometry_warns_iff_witness :
  snd (parseGeometry 1 "null")
  = [console_warn "Failed to parse geometry for region 1:"]
  /\ snd (parseGeometry 4 "[]") = [].
Proof.
  split.
  - apply (proj2 (proj1 (parseGeometry_warns_iff 1 "null"))). right. reflexivity.
  - apply (proj2 (proj2 (parseGeometry_warns_iff 4 "[]"))).
    exists (JArray []). split; [reflexivity | discriminate].
Defined.

Lemma feature_invariant_witness :
  exists regionId data,
    In regionId VALID_REGIONS
    /\ dataOf surroundings regionId = Some data
    /\ Properties.stale
         (Properties.shared
            (Feature.properties
               (pointFeature 2
                  (baseProperties 2 (region 2 "Taranaki" "not json") insufficientData)
                  (region 2 "Taranaki" "not json") insufficientData)))
       <> None.
Proof.
  destruct (feature_invariant surroundings
              (pointFeature 2
                 (baseProperties 2 (region 2 "Taranaki" "not json") insufficientData)
                 (region 2 "Taranaki" "not json") insufficientData))
    as (regionId & data & Hregion & Hdata & _ & _ & Hstale & _).
  - vm_compute. right. right. left. reflexivity.
  - exists regionId, data. auto.
Defined.

End FurtherWitnesses.
